(** * Layr store: query compilation and the store facade

    A shallow embedding of [packages/store/src/store.ts]: the query compiler
    [toDocumentExpressions] (with its three local functions [build],
    [handleValue] and [handleOperator]) and the document operations of the
    abstract [Store] class ([load], [save], [delete], [find], [count],
    [_runOperation] and the tracing methods). *)

From Stdlib Require Import String List ZArith Bool Lia Sorted Permutation.
From stdpp Require Import base option list strings pretty gmap.

Local Open Scope string_scope.
Local Open Scope list_scope.

(** ** Results of code that may throw *)

Inductive result (E A : Type) : Type :=
| Return (a : A)
| Throw (e : E).
Arguments Return {E A} a.
Arguments Throw {E A} e.

Definition bind {E A B} (m : result E A) (k : A -> result E B) : result E B :=
  match m with
  | Return a => k a
  | Throw e => Throw e
  end.

Declare Scope result_scope.
Delimit Scope result_scope with result.
Notation "x <- m ;; k" := (bind m (fun x => k))
  (at level 100, m at next level, right associativity) : result_scope.
Local Open Scope result_scope.

Definition isReturn {E A} (m : result E A) : bool :=
  match m with Return _ => true | Throw _ => false end.

(** A [for ... of] loop whose body updates an accumulator and may throw;
    the first throw leaves the loop. *)
Definition forEach {E A S} (body : A -> S -> result E S)
  : list A -> S -> result E S :=
  fix loop (items : list A) (state : S) : result E S :=
    match items with
    | [] => Return state
    | item :: rest => state' <- body item state ;; loop rest state'
    end.

(** [Array.prototype.map] with a callback that may throw. *)
Definition mapM {E A B} (f : A -> result E B) : list A -> result E (list B) :=
  fix loop (items : list A) : result E (list B) :=
    match items with
    | [] => Return []
    | item :: rest => b <- f item ;; bs <- loop rest ;; Return (b :: bs)
    end.

(** A body appends when what it adds does not depend on what was there. *)
Definition appends {E A X} (body : A -> list X -> result E (list X)) (item : A)
  : Prop :=
  forall state,
    body item state = (added <- body item [] ;; Return (state ++ added)).

(** ** Data model *)

(** Plain JavaScript values as they reach the compiler.  A plain object is
    the list of its entries in [Object.entries] order; [VInstance] stands for
    any object that is not a plain object (a [Date], a [RegExp], ...).
    Numbers are only carried around, never computed with. *)
Unset Elimination Schemes.
Inductive value : Type :=
| VUndefined
| VNull
| VBoolean (b : bool)
| VNumber (n : Z)
| VString (s : string)
| VArray (elements : list value)
| VObject (entries : list (string * value))
| VInstance (className : string).
Set Elimination Schemes.

Definition PlainObject : Type := list (string * value).
Definition Query : Type := PlainObject.
Definition Path : Type := string.
Definition Operator : Type := string.

Definition isPlainObject (v : value) : bool :=
  match v with
  | VObject _ => true
  | _ => false
  end.

(** [Object.keys] *)
Definition keys (object : PlainObject) : list string := map fst object.

(** Structural induction through arrays and objects. *)
Definition value_nested_ind (P : value -> Prop)
  (Hundefined : P VUndefined)
  (Hnull : P VNull)
  (Hboolean : forall b, P (VBoolean b))
  (Hnumber : forall n, P (VNumber n))
  (Hstring : forall s, P (VString s))
  (Harray : forall elements, Forall P elements -> P (VArray elements))
  (Hobject : forall entries,
      Forall (fun entry => P (snd entry)) entries -> P (VObject entries))
  (Hinstance : forall c, P (VInstance c))
  : forall v, P v :=
  fix go (v : value) : P v :=
    match v with
    | VUndefined => Hundefined
    | VNull => Hnull
    | VBoolean b => Hboolean b
    | VNumber n => Hnumber n
    | VString s => Hstring s
    | VArray elements =>
        Harray elements
          ((fix all (l : list value) : Forall P l :=
              match l with
              | [] => List.Forall_nil P
              | x :: l' => @List.Forall_cons _ P x l' (go x) (all l')
              end) elements)
    | VObject entries =>
        Hobject entries
          ((fix all (l : list (string * value))
              : Forall (fun entry => P (snd entry)) l :=
              match l with
              | [] => List.Forall_nil _
              | x :: l' => @List.Forall_cons _ _ x l' (go (snd x)) (all l')
              end) entries)
    | VInstance c => Hinstance c
    end.

(** An expression is the triple [[path, operator, value]]; the third
    component is a plain value, a list of expressions ([$some], [$every],
    [$not]) or a list of lists of expressions ([$and], [$or], [$nor]). *)
Inductive Expression : Type :=
| Expr (path : Path) (operator : Operator) (operand : Operand)
with Operand : Type :=
| Plain (v : value)
| Nested (subexpressions : list Expression)
| NestedList (operatorExpressions : list (list Expression)).

(** The errors thrown while compiling a query.  The source throws plain
    [Error]s; each constructor stands for one message template and keeps the
    fragment the message quotes. *)
Inductive QueryError : Type :=
| UnsupportedRootOperator (operator : Operator) (query : Query)
    (* A query cannot contain the operator '...' at its root (query: ...) *)
| InvalidQueryShape (subquery : PlainObject)
    (* A subquery cannot contain both an attribute and an operator *)
| UnexpectedObjectValue (query : Query)
    (* Unexpected object encountered in a query (query: ...) *)
| UnknownOperator (operator : Operator) (query : Query)
    (* raised by the operator registry *)
| InvalidOperatorValue (operator : Operator) (query : Query)
    (* raised by the operator registry *)
| TypeError (message : string).
    (* raised by the JavaScript runtime *)

(** ** Operator registry *)

Module OperatorRegistry.

(** Modelled from the spec: [operator.ts] is not among the sources.  It
    exports [looksLikeOperator], the syntactic test on the key's reserved
    leading character [$]. *)
Definition looksLikeOperator (name : string) : bool :=
  String.prefix "$" name.

(** Modelled from the spec: the closed set of operator tokens of the
    registry of [operator.ts], which is not among the sources. *)
Definition canonicalOperators : list Operator :=
  [ "$equal"; "$notEqual"; "$greaterThan"; "$greaterThanOrEqual";
    "$lessThan"; "$lessThanOrEqual"; "$in"; "$notIn";
    "$and"; "$or"; "$nor"; "$some"; "$every"; "$not" ].

Definition isCanonical (operator : Operator) : bool :=
  existsb (String.eqb operator) canonicalOperators.

Fixpoint resolveAlias (aliases : list (Operator * Operator))
  (operator : Operator) : option Operator :=
  match aliases with
  | [] => None
  | (name, target) :: rest =>
      if String.eqb name operator then Some target
      else resolveAlias rest operator
  end.

(** Modelled from the spec: [normalizeOperatorForValue] of [operator.ts],
    which is not among the sources.  A canonical token is returned as it
    is, an alias is resolved through the registry's alias table (kept as a
    parameter, the spec lists no alias), and any other token fails with
    [UnknownOperator] naming the token and the query. *)
Definition normalizeOperatorForValue (aliases : list (Operator * Operator))
  (operator : Operator) (v : value) (query : Query)
  : result QueryError Operator :=
  if isCanonical operator then Return operator
  else match resolveAlias aliases operator with
       | Some target => Return target
       | None => Throw (UnknownOperator operator query)
       end.

End OperatorRegistry.

Export OperatorRegistry (looksLikeOperator).

(** ** Query compiler *)

Definition isLogicalOperator (operator : Operator) : bool :=
  String.eqb operator "$and" || String.eqb operator "$or"
  || String.eqb operator "$nor".

Definition isQuantifierOperator (operator : Operator) : bool :=
  String.eqb operator "$some" || String.eqb operator "$every"
  || String.eqb operator "$not".

(** [path !== '' ? `${path}.${name}` : name] *)
Definition extendPath (path : Path) (name : string) : Path :=
  if String.eqb path "" then name else path +:+ "." +:+ name.

(** The two flags [handleValue] computes over [Object.keys(object)]. *)
Definition scanKeys (names : list string) : bool * bool :=
  fold_left
    (fun '(objectContainsAttributes, objectContainsOperators) name =>
       if looksLikeOperator name
       then (objectContainsAttributes, true)
       else (true, objectContainsOperators))
    names (false, false).

Section QueryCompiler.

(** The registry's normalisation is imported from [operator.ts]; the
    compiler is written against any such function. *)
Variable normalizeOperatorForValue :
  Operator -> value -> Query -> result QueryError Operator.

Definition Compile : Type :=
  value -> list Expression -> Path -> Query ->
  result QueryError (list Expression).

(** The three local functions are mutually recursive in the source.  The
    recursion always descends into the query, so [handleOperator] and
    [build] are written over the [handleValue] they call. *)
Definition handleOperator_ (handleValue : Compile)
  (operator : Operator) (v : value) (expressions : list Expression)
  (path : Path) (query : Query) : result QueryError (list Expression) :=
  normalizedOperator <- normalizeOperatorForValue operator v query ;;
  if isQuantifierOperator normalizedOperator then
    subexpressions <- handleValue v [] "" query ;;
    Return (expressions ++ [Expr path normalizedOperator (Nested subexpressions)])
  else if isLogicalOperator normalizedOperator then
    match v with
    | VArray values =>
        operatorExpressions <-
          mapM (fun element => handleValue element [] "" query) values ;;
        Return (expressions ++
                [Expr path normalizedOperator (NestedList operatorExpressions)])
    | _ => Throw (TypeError "values.map is not a function")
    end
  else if isPlainObject v then Throw (UnexpectedObjectValue query)
  else Return (expressions ++ [Expr path normalizedOperator (Plain v)]).

(** The body of the loop of [build] over [Object.entries(query)]. *)
Definition buildEntry_ (handleValue : Compile) (query : Query) (path : Path)
  (entry : string * value) (expressions : list Expression)
  : result QueryError (list Expression) :=
  let '(name, v) := entry in
  if looksLikeOperator name then
    let operator := name in
    if isLogicalOperator operator then
      handleOperator_ handleValue operator v expressions path query
    else Throw (UnsupportedRootOperator operator query)
  else
    let subpath := extendPath path name in
    handleValue v expressions subpath query.

Definition build_ (handleValue : Compile)
  (query : Query) (expressions : list Expression) (path : Path)
  : result QueryError (list Expression) :=
  forEach (buildEntry_ handleValue query path) query expressions.

Fixpoint handleValue (v : value) (expressions : list Expression)
  (subpath : Path) (query : Query) {struct v}
  : result QueryError (list Expression) :=
  match v with
  | VObject object =>
      let '(objectContainsAttributes, objectContainsOperators) :=
        scanKeys (keys object) in
      if objectContainsAttributes then
        if objectContainsOperators then Throw (InvalidQueryShape object)
        else
          let subquery := object in
          build_ handleValue subquery expressions subpath
      else if objectContainsOperators then
        let operators := object in
        forEach
          (fun '(operator, v') expressions =>
             handleOperator_ handleValue operator v' expressions subpath query)
          operators expressions
      else Return expressions
  | _ =>
      (* Make '$equal' the default operator for non object values *)
      Return (expressions ++ [Expr subpath "$equal" (Plain v)])
  end.

Definition handleOperator := handleOperator_ handleValue.
Definition buildEntry := buildEntry_ handleValue.
Definition build := build_ handleValue.

End QueryCompiler.

(** ** Serialization hooks and the compiler's entry point *)

(** [Object.entries] of a value.  The entries of an array and of a string
    are indexed by position; [null] and [undefined] cannot be converted to
    an object; the other values have no enumerable property of their own. *)
Definition objectEntries (v : value) : result QueryError Query :=
  match v with
  | VObject entries => Return entries
  | VArray elements =>
      Return (imap (fun i element => (pretty i, element)) elements)
  | VString s =>
      Return (imap (fun i c => (pretty i, VString (String c "")))
                (list_ascii_of_string s))
  | VUndefined | VNull =>
      Throw (TypeError "Cannot convert undefined or null to object")
  | VBoolean _ | VNumber _ | VInstance _ => Return []
  end.

Section Serialization.

Context {Storable : Type}.

(** [deserialize] is imported from [simple-serialization] and
    [normalizeOperatorForValue] from [./operator].  [deserialize] throws on
    a serialized form it cannot rebuild; it is taken here where it returns,
    and the statements about [toDocument] and [toDocumentExpressions] are
    about the calls in which it does. *)
Variable deserialize : value -> value.
Variable normalizeOperatorForValue :
  Operator -> value -> Query -> result QueryError Operator.

Definition toDocument (_storable : Storable) (v : value) : value :=
  deserialize v.

(* {a: 1, b: {c: 2}} => [['a', '$equal', 1], ['b.c', '$equal', 2]] *)
Definition toDocumentExpressions (storable : Storable) (query : value)
  : result QueryError (list Expression) :=
  let documentQuery := toDocument storable query in
  let documentExpressions : list Expression := [] in
  entries <- objectEntries documentQuery ;;
  build normalizeOperatorForValue entries documentExpressions "".

End Serialization.

(** ** Store facade *)

Inductive ComponentTypeKind : Type :=
| componentClassType
| componentInstanceType.

Definition SortDescriptor : Type := value.

Record CreateDocumentParams : Type := {
  create_collectionName : string;
  create_identifierDescriptor : value;
  create_document : value
}.

Record ReadDocumentParams (Projection : Type) : Type := {
  read_collectionName : string;
  read_identifierDescriptor : value;
  read_projection : option Projection
}.
Arguments read_collectionName {Projection} _.
Arguments read_identifierDescriptor {Projection} _.
Arguments read_projection {Projection} _.

Record UpdateDocumentParams (DocumentPatch : Type) : Type := {
  update_collectionName : string;
  update_identifierDescriptor : value;
  update_documentPatch : DocumentPatch
}.
Arguments update_collectionName {DocumentPatch} _.
Arguments update_identifierDescriptor {DocumentPatch} _.
Arguments update_documentPatch {DocumentPatch} _.

Record DeleteDocumentParams : Type := {
  delete_collectionName : string;
  delete_identifierDescriptor : value
}.

Record FindDocumentsParams (Projection : Type) : Type := {
  find_collectionName : string;
  find_expressions : list Expression;
  find_projection : option Projection;
  find_sort : option SortDescriptor;
  find_skip : option Z;
  find_limit : option Z
}.
Arguments find_collectionName {Projection} _.
Arguments find_expressions {Projection} _.
Arguments find_projection {Projection} _.
Arguments find_sort {Projection} _.
Arguments find_skip {Projection} _.
Arguments find_limit {Projection} _.

Record CountDocumentsParams : Type := {
  count_collectionName : string;
  count_expressions : list Expression
}.

(** The parameters and options of the five operations. *)
Record LoadParams : Type := {
  load_storableType : string;
  load_identifierDescriptor : value
}.

Record LoadOptions : Type := {
  load_attributeSelector : option value;
  load_throwIfMissing : option bool
}.

Record SaveParams : Type := {
  save_storableType : string;
  save_identifierDescriptor : value;
  save_serializedStorable : value;
  save_isNew : option bool
}.

Record SaveOptions : Type := {
  save_throwIfMissing : option bool;
  save_throwIfExists : option bool
}.

Record DeleteParams : Type := {
  del_storableType : string;
  del_identifierDescriptor : value
}.

Record DeleteOptions : Type := {
  del_throwIfMissing : option bool
}.

Record FindParams : Type := {
  fnd_storableType : string;
  fnd_query : option value;
  fnd_sort : option SortDescriptor;
  fnd_skip : option Z;
  fnd_limit : option Z
}.

Record FindOptions : Type := {
  fnd_attributeSelector : option value
}.

Record CountParams : Type := {
  cnt_storableType : string;
  cnt_query : option value
}.

(** What a trace entry records of a call: the [params] and [options]
    objects and the [result], which are untyped in the source. *)
Inductive OperationParams : Type :=
| ParamsOfLoad (params : LoadParams)
| ParamsOfSave (params : SaveParams)
| ParamsOfDelete (params : DeleteParams)
| ParamsOfFind (params : FindParams)
| ParamsOfCount (params : CountParams).

Inductive OperationOptions : Type :=
| OptionsOfLoad (options : LoadOptions)
| OptionsOfSave (options : SaveOptions)
| OptionsOfDelete (options : DeleteOptions)
| OptionsOfFind (options : FindOptions).

Inductive OperationResult : Type :=
| ResultOfLoad (serializedStorable : option value)
| ResultOfSave (wasSaved : bool)
| ResultOfDelete (wasDeleted : bool)
| ResultOfFind (serializedStorables : list value)
| ResultOfCount (documentsCount : Z).

(** The errors of the facade.  [code] gives the machine-readable code the
    source attaches with [Object.assign]. *)
Inductive StoreError (Storable : Type) : Type :=
| StorableOfTypeNotRegistered (type : string)
    (* The storable component of type '...' is not registered in the store *)
| OptionsBothTrue
    (* The 'throwIfMissing' and 'throwIfExists' options cannot be both set to true *)
| CannotLoadMissing (storable : Storable) (identifierDescriptor : value)
    (* Cannot load a component that is missing from the store *)
| CannotSaveMissing (storable : Storable) (identifierDescriptor : value)
    (* Cannot save a non-new component that is missing from the store *)
| CannotSaveExisting (storable : Storable) (identifierDescriptor : value)
    (* Cannot save a new component that already exists in the store *)
| CannotDeleteMissing (storable : Storable) (identifierDescriptor : value)
    (* Cannot delete a component that is missing from the store *)
| NotTracing
    (* The store is not currently tracing *)
| InvalidQuery (e : QueryError)
| OtherError (message : string).
    (* thrown by a backend or by an imported helper, passed through *)
Arguments StorableOfTypeNotRegistered {Storable} type.
Arguments OptionsBothTrue {Storable}.
Arguments CannotLoadMissing {Storable} storable identifierDescriptor.
Arguments CannotSaveMissing {Storable} storable identifierDescriptor.
Arguments CannotSaveExisting {Storable} storable identifierDescriptor.
Arguments CannotDeleteMissing {Storable} storable identifierDescriptor.
Arguments NotTracing {Storable}.
Arguments InvalidQuery {Storable} e.
Arguments OtherError {Storable} message.

Definition code {Storable} (error : StoreError Storable) : option string :=
  match error with
  | CannotLoadMissing _ _ | CannotSaveMissing _ _ | CannotDeleteMissing _ _ =>
      Some "COMPONENT_IS_MISSING_FROM_STORE"
  | CannotSaveExisting _ _ => Some "COMPONENT_ALREADY_EXISTS_IN_STORE"
  | _ => None
  end.

Definition expose {Storable} (error : StoreError Storable) : bool :=
  match code error with Some _ => true | None => false end.

(** An entry of the trace; [result_] is its [result] property.  Exactly one
    of [result_] and [error] is set by [_runOperation]. *)
Record TraceEntry (Storable : Type) : Type := {
  operation : string;
  params : OperationParams;
  options : option OperationOptions;
  result_ : option OperationResult;
  error : option (StoreError Storable)
}.
Arguments operation {Storable} _.
Arguments params {Storable} _.
Arguments options {Storable} _.
Arguments result_ {Storable} _.
Arguments error {Storable} _.

(** [cloneDeep] of lodash: values are immutable here, a copy is the value. *)
Definition cloneDeep {A} (a : A) : A := a.

(** Computations of the facade: they read and update the store and may
    throw.  The state reached when an error is thrown is kept, as it is in
    the source. *)
Definition Op (S E A : Type) : Type := S -> result E A * S.

Definition ret {S E A} (a : A) : Op S E A := fun s => (Return a, s).

Definition throw {S E A} (e : E) : Op S E A := fun s => (Throw e, s).

Definition lift {S E A} (r : result E A) : Op S E A := fun s => (r, s).

Definition bindOp {S E A B} (m : Op S E A) (k : A -> Op S E B) : Op S E B :=
  fun s =>
    match m s with
    | (Return a, s') => k a s'
    | (Throw e, s') => (Throw e, s')
    end.

Notation "x <~ m ;; k" := (bindOp m (fun x => k))
  (at level 100, m at next level, right associativity) : result_scope.

Definition mapError {E E' A} (f : E -> E') (r : result E A) : result E' A :=
  match r with
  | Return a => Return a
  | Throw e => Throw (f e)
  end.

Section Store.

Context {Storable Projection DocumentPatch : Type}.

Abbreviation Error := (StoreError Storable).

(** What [store.ts] imports from [@layr/component], [core-helpers],
    [simple-serialization], [./document] and [./operator].  The helpers
    that validate their argument may throw, and so may
    [pickFromAttributeSelector], which checks the document against the
    selector. *)
Record Imports : Type := {
  assertIsComponentType : string -> result Error ComponentTypeKind;
  getComponentNameFromComponentClassType : string -> string;
  getComponentNameFromComponentInstanceType : string -> string;
  ensureComponentClass : Storable -> Storable;
  getComponentName : Storable -> string;
  prototype : Storable -> Storable;
  normalizeAttributeSelector : value -> result Error value;
  pickFromAttributeSelector :
    value -> value -> list string -> result Error value;
  deleteUndefinedProperties : value -> value;
  serialize : value -> value;
  deserialize : value -> value;
  buildProjection : value -> option Projection;
  buildDocumentPatch : value -> DocumentPatch;
  normalizeOperatorForValue :
    Operator -> value -> Query -> result QueryError Operator
}.

(** The six abstract document operations a concrete store implements,
    over the state [B] of that store. *)
Class AbstractStore (B : Type) : Type := {
  createDocument : CreateDocumentParams -> Op B Error bool;
  readDocument : ReadDocumentParams Projection -> Op B Error (option value);
  updateDocument : UpdateDocumentParams DocumentPatch -> Op B Error bool;
  deleteDocument : DeleteDocumentParams -> Op B Error bool;
  findDocuments : FindDocumentsParams Projection -> Op B Error (list value);
  countDocuments : CountDocumentsParams -> Op B Error Z
}.

Context {B : Type} `{AbstractStore B}.
Variable imports : Imports.

Record Store : Type := {
  _storables : gmap string Storable;
  _trace : option (list (TraceEntry Storable));
  backend : B
}.

Definition setTrace (trace : option (list (TraceEntry Storable)))
  (store : Store) : Store :=
  {| _storables := _storables store; _trace := trace;
     backend := backend store |}.

(** A call of one of the abstract document operations. *)
Definition await {A} (call : Op B Error A) : Op Store Error A :=
  fun store =>
    let '(outcome, backend') := call (backend store) in
    (outcome,
     {| _storables := _storables store; _trace := _trace store;
        backend := backend' |}).

(** *** Storables *)

Definition _getStorable (name : string) : Op Store Error (option Storable) :=
  fun store => (Return (_storables store !! name), store).

Definition _getStorableOfType (type : string)
  : Op Store Error (option Storable) :=
  kind <~ lift (assertIsComponentType imports type) ;;
  let isComponentClassType :=
    match kind with componentClassType => true | _ => false end in
  let componentName :=
    if isComponentClassType
    then getComponentNameFromComponentClassType imports type
    else getComponentNameFromComponentInstanceType imports type in
  component <~ _getStorable componentName ;;
  match component with
  | None => ret None
  | Some component =>
      ret (Some (if isComponentClassType then component
                 else prototype imports component))
  end.

Definition getStorableOfType (type : string) : Op Store Error Storable :=
  storable <~ _getStorableOfType type ;;
  match storable with
  | Some storable => ret storable
  | None => throw (StorableOfTypeNotRegistered type)
  end.

(** *** Collections *)

Definition _getCollectionNameFromStorable (storable : Storable) : string :=
  getComponentName imports (ensureComponentClass imports storable).

(** *** Serialization *)

Definition fromDocument (_storable : Storable) (document : value) : value :=
  serialize imports document.

(** *** Tracing *)

Definition pushTrace (entry : TraceEntry Storable) (store : Store) : Store :=
  setTrace (option_map (fun trace => trace ++ [entry]) (_trace store)) store.

Definition _runOperation {R} (toResult : R -> OperationResult)
  (operation : string) (params : OperationParams)
  (options : option OperationOptions) (func : Op Store Error R)
  : Op Store Error R :=
  fun store =>
    let trace := _trace store in
    match func store with
    | (Return result, store') =>
        (Return result,
         match trace with
         | Some _ =>
             pushTrace
               {| operation := operation; params := cloneDeep params;
                  options := cloneDeep options;
                  result_ := Some (toResult result); error := None |}
               store'
         | None => store'
         end)
    | (Throw error, store') =>
        (Throw error,
         match trace with
         | Some _ =>
             pushTrace
               {| operation := operation; params := cloneDeep params;
                  options := cloneDeep options;
                  result_ := None; error := Some error |}
               store'
         | None => store'
         end)
    end.

Definition getTrace : Op Store Error (list (TraceEntry Storable)) :=
  fun store =>
    match _trace store with
    | None => (Throw NotTracing, store)
    | Some trace => (Return trace, store)
    end.

Definition startTrace (store : Store) : Store := setTrace (Some []) store.

Definition stopTrace (store : Store) : Store := setTrace None store.

(** A computation that leaves the trace alone. *)
Definition keepsTrace {A} (m : Op Store Error A) : Prop :=
  forall store, _trace (snd (m store)) = _trace store.

(** A computation that does not look at the trace: run with another trace,
    it gives the same outcome and the same store but for that trace. *)
Definition ignoresTrace {A} (m : Op Store Error A) : Prop :=
  forall trace store,
    m (setTrace trace store)
    = (fst (m store), setTrace trace (snd (m store))).

(** *** Document operations *)

Definition load (params : LoadParams) (options : LoadOptions)
  : Op Store Error (option value) :=
  _runOperation ResultOfLoad "load" (ParamsOfLoad params)
    (Some (OptionsOfLoad options))
    (let storableType := load_storableType params in
     let identifierDescriptor := load_identifierDescriptor params in
     let attributeSelector :=
       default (VBoolean true) (load_attributeSelector options) in
     let throwIfMissing := default true (load_throwIfMissing options) in
     attributeSelector <~
       lift (normalizeAttributeSelector imports attributeSelector) ;;
     storable <~ getStorableOfType storableType ;;
     let collectionName := _getCollectionNameFromStorable storable in
     let documentIdentifierDescriptor :=
       toDocument (deserialize imports) storable identifierDescriptor in
     let documentAttributeSelector :=
       toDocument (deserialize imports) storable attributeSelector in
     let projection := buildProjection imports documentAttributeSelector in
     document <~
       await (readDocument
                {| read_collectionName := collectionName;
                   read_identifierDescriptor := documentIdentifierDescriptor;
                   read_projection := projection |}) ;;
     match document with
     | Some document =>
         document <~
           lift (pickFromAttributeSelector imports document
                   documentAttributeSelector ["__component"]) ;;
         let serializedStorable := fromDocument storable document in
         ret (Some serializedStorable)
     | None =>
         if negb throwIfMissing then ret None
         else throw (CannotLoadMissing storable identifierDescriptor)
     end).

Definition save (params : SaveParams) (options : SaveOptions)
  : Op Store Error bool :=
  _runOperation ResultOfSave "save" (ParamsOfSave params)
    (Some (OptionsOfSave options))
    (let storableType := save_storableType params in
     let identifierDescriptor := save_identifierDescriptor params in
     let serializedStorable := save_serializedStorable params in
     let isNew := default false (save_isNew params) in
     let throwIfMissing := default (negb isNew) (save_throwIfMissing options) in
     let throwIfExists := default isNew (save_throwIfExists options) in
     if throwIfMissing && throwIfExists then throw OptionsBothTrue
     else
       storable <~ getStorableOfType storableType ;;
       let collectionName := _getCollectionNameFromStorable storable in
       let documentIdentifierDescriptor :=
         toDocument (deserialize imports) storable identifierDescriptor in
       let document :=
         toDocument (deserialize imports) storable serializedStorable in
       wasSaved <~
         (if isNew then
            let document := deleteUndefinedProperties imports document in
            await (createDocument
                     {| create_collectionName := collectionName;
                        create_identifierDescriptor :=
                          documentIdentifierDescriptor;
                        create_document := document |})
          else
            let documentPatch := buildDocumentPatch imports document in
            await (updateDocument
                     {| update_collectionName := collectionName;
                        update_identifierDescriptor :=
                          documentIdentifierDescriptor;
                        update_documentPatch := documentPatch |})) ;;
       if negb wasSaved then
         if throwIfMissing then
           throw (CannotSaveMissing storable identifierDescriptor)
         else if throwIfExists then
           throw (CannotSaveExisting storable identifierDescriptor)
         else ret wasSaved
       else ret wasSaved).

Definition delete (params : DeleteParams) (options : DeleteOptions)
  : Op Store Error bool :=
  _runOperation ResultOfDelete "delete" (ParamsOfDelete params)
    (Some (OptionsOfDelete options))
    (let storableType := del_storableType params in
     let identifierDescriptor := del_identifierDescriptor params in
     let throwIfMissing := default true (del_throwIfMissing options) in
     storable <~ getStorableOfType storableType ;;
     let collectionName := _getCollectionNameFromStorable storable in
     let documentIdentifierDescriptor :=
       toDocument (deserialize imports) storable identifierDescriptor in
     wasDeleted <~
       await (deleteDocument
                {| delete_collectionName := collectionName;
                   delete_identifierDescriptor :=
                     documentIdentifierDescriptor |}) ;;
     if negb wasDeleted then
       if throwIfMissing then
         throw (CannotDeleteMissing storable identifierDescriptor)
       else ret wasDeleted
     else ret wasDeleted).

Definition find (params : FindParams) (options : FindOptions)
  : Op Store Error (list value) :=
  _runOperation ResultOfFind "find" (ParamsOfFind params)
    (Some (OptionsOfFind options))
    (let storableType := fnd_storableType params in
     let query := default (VObject []) (fnd_query params) in
     let sort := default (VObject []) (fnd_sort params) in
     let skip := fnd_skip params in
     let limit := fnd_limit params in
     let attributeSelector :=
       default (VBoolean true) (fnd_attributeSelector options) in
     attributeSelector <~
       lift (normalizeAttributeSelector imports attributeSelector) ;;
     storable <~ getStorableOfType storableType ;;
     let collectionName := _getCollectionNameFromStorable storable in
     documentExpressions <~
       lift (mapError InvalidQuery
               (toDocumentExpressions (deserialize imports)
                  (normalizeOperatorForValue imports) storable query)) ;;
     let documentSort := toDocument (deserialize imports) storable sort in
     let documentAttributeSelector :=
       toDocument (deserialize imports) storable attributeSelector in
     let projection := buildProjection imports documentAttributeSelector in
     documents <~
       await (findDocuments
                {| find_collectionName := collectionName;
                   find_expressions := documentExpressions;
                   find_projection := projection;
                   find_sort := Some documentSort;
                   find_skip := skip;
                   find_limit := limit |}) ;;
     documents <~
       lift (mapM (fun document =>
                     pickFromAttributeSelector imports document
                       documentAttributeSelector ["__component"])
               documents) ;;
     let serializedStorables :=
       map (fun document => fromDocument storable document) documents in
     ret serializedStorables).

Definition count (params : CountParams) : Op Store Error Z :=
  _runOperation ResultOfCount "find" (ParamsOfCount params) None
    (let storableType := cnt_storableType params in
     let query := default (VObject []) (cnt_query params) in
     storable <~ getStorableOfType storableType ;;
     let collectionName := _getCollectionNameFromStorable storable in
     documentExpressions <~
       lift (mapError InvalidQuery
               (toDocumentExpressions (deserialize imports)
                  (normalizeOperatorForValue imports) storable query)) ;;
     documentsCount <~
       await (countDocuments
                {| count_collectionName := collectionName;
                   count_expressions := documentExpressions |}) ;;
     ret documentsCount).

End Store.

(** ** Reading the compiled expressions off a query *)

(** An attribute name: a non-empty key that is not an operator token. *)
Definition isAttributeName (name : string) : bool :=
  negb (looksLikeOperator name) && negb (String.eqb name "").

(** No key of the value, at any level of nested plain objects, looks like an
    operator. *)
Fixpoint operatorFree (v : value) : bool :=
  match v with
  | VObject entries =>
      forallb (fun entry => negb (looksLikeOperator (fst entry))
                            && operatorFree (snd entry)) entries
  | _ => true
  end.

(** A well-formed attribute query: every key, at every level of nested plain
    objects, is an attribute name. *)
Fixpoint attributesOnly (v : value) : bool :=
  match v with
  | VObject entries =>
      forallb (fun entry => isAttributeName (fst entry)
                            && attributesOnly (snd entry)) entries
  | _ => true
  end.

(** The leaves of a value: every value that is not a plain object, reached
    through nested plain objects, with the chain of keys that leads to it,
    in the order of the entries. *)
Fixpoint leaves (v : value) : list (list string * value) :=
  match v with
  | VObject entries =>
      flat_map
        (fun entry =>
           map (fun leaf => (fst entry :: fst leaf, snd leaf))
             (leaves (snd entry)))
        entries
  | _ => [([], v)]
  end.

(** The chain of keys joined with dots. *)
Definition dotJoin (chain : list string) : Path := String.concat "." chain.

(** The path the compiler builds along a chain of keys. *)
Definition pathAlong (path : Path) (chain : list string) : Path :=
  fold_left extendPath chain path.

Definition equalExpression (path : Path) (v : value) : Expression :=
  Expr path "$equal" (Plain v).

(** The expression the compiler emits for a leaf below [path]. *)
Definition leafExpression (path : Path) (leaf : list string * value)
  : Expression :=
  equalExpression (pathAlong path (fst leaf)) (snd leaf).



(** ** Component registration *)

(** The errors of the registration methods; each constructor stands for one
    message of the source. *)
Inductive RegistryError (Storable Component : Type) : Type :=
| NoStorableFound (rootComponent : Component)
    (* No storable components were found from the specified root component *)
| StorableNotRegistered (name : string)
    (* The storable component '...' is not registered in the store *)
| RegisteredInAnotherStore (storable : Storable)
    (* Cannot register a storable component that is already registered in
       another store *)
| SameNameRegistered (existingStorable : Storable)
    (* A storable component with the same name is already registered *)
| RegistryFacadeError (e : StoreError Storable)
| RegistryImportError (message : string).
    (* thrown by an imported helper, passed through *)
Arguments NoStorableFound {Storable Component} rootComponent.
Arguments StorableNotRegistered {Storable Component} name.
Arguments RegisteredInAnotherStore {Storable Component} storable.
Arguments SameNameRegistered {Storable Component} existingStorable.
Arguments RegistryFacadeError {Storable Component} e.
Arguments RegistryImportError {Storable Component} message.

Section Registration.

Context {Storable Component StoreRef Slots B : Type}.
Context `{EqDecision Component} `{EqDecision StoreRef}.

Abbreviation RError := (RegistryError Storable Component).

(** What the registration methods use of [@layr/component] and of
    [./storable-like].  A storable class keeps a reference to its store;
    [Slots] is the state of these references, read by [hasStore] and
    [getStore] and written by [__setStore].  [isStorableLikeClass] is a type
    guard: it gives the component seen as a storable class when it is one. *)
Record ComponentLayer : Type := {
  assertIsComponentClass : Component -> result RError unit;
  assertIsStorableLikeClass : Storable -> result RError unit;
  isStorableLikeClass : Component -> option Storable;
  getProvidedComponents : Component -> list Component;
  componentName : Storable -> string;
  hasStore : Storable -> Slots -> bool;
  getStore : Storable -> Slots -> result RError StoreRef;
  __setStore : Storable -> StoreRef -> Slots -> Slots
}.

Variable layer : ComponentLayer.

(** The store seen by the registration methods: the store itself, its set
    of root components (in insertion order, as a [Set] iterates) and the
    store references of the storable classes. *)
Record Registry : Type := {
  registryStore : @Store Storable B;
  _rootComponents : list Component;
  storeSlots : Slots
}.

(** [this] is the reference of the store the methods are called on. *)
Variable this : StoreRef.

(** [Set.prototype.add] *)
Definition setAdd (component : Component) (set : list Component)
  : list Component :=
  if decide (component ∈ set) then set else set ++ [component].

Definition getRootComponents (registry : Registry) : list Component :=
  _rootComponents registry.

Definition getStorable (name : string) : Op Registry RError Storable :=
  fun registry =>
    match _getStorable name (registryStore registry) with
    | (Return (Some storable), _) => (Return storable, registry)
    | (Return None, _) => (Throw (StorableNotRegistered name), registry)
    | (Throw e, _) => (Throw (RegistryFacadeError e), registry)
    end.

Definition hasStorable (name : string) (registry : Registry) : bool :=
  match _getStorable name (registryStore registry) with
  | (Return (Some _), _) => true
  | _ => false
  end.

Definition registerStorable (storable : Storable) : Op Registry RError unit :=
  _ <~ lift (assertIsStorableLikeClass layer storable) ;;
  fun registry =>
    if hasStore layer storable (storeSlots registry) then
      match getStore layer storable (storeSlots registry) with
      | Return owner =>
          if decide (owner = this) then (Return tt, registry)
          else (Throw (RegisteredInAnotherStore storable), registry)
      | Throw e => (Throw e, registry)
      end
    else
      let storableName := componentName layer storable in
      let existingStorable :=
        _storables (registryStore registry) !! storableName in
      match existingStorable with
      | Some existingStorable =>
          (Throw (SameNameRegistered existingStorable), registry)
      | None =>
          (Return tt,
           {| registryStore :=
                {| _storables :=
                     <[storableName := storable]>
                       (_storables (registryStore registry));
                   _trace := _trace (registryStore registry);
                   backend := backend (registryStore registry) |};
              _rootComponents := _rootComponents registry;
              storeSlots :=
                __setStore layer storable this (storeSlots registry) |})
      end.

(** The local function of [registerRootComponent]; [storableCount] is
    threaded through. *)
Definition registerIfComponentIsStorable (component : Component)
  (storableCount : nat) : Op Registry RError nat :=
  match isStorableLikeClass layer component with
  | Some storable =>
      _ <~ registerStorable storable ;;
      ret (S storableCount)
  | None => ret storableCount
  end.

Definition forEachOp {S E A X} (body : A -> X -> Op S E X)
  : list A -> X -> Op S E X :=
  fix loop (items : list A) (x : X) : Op S E X :=
    match items with
    | [] => ret x
    | item :: rest => x' <~ body item x ;; loop rest x'
    end.

Definition registerRootComponent (rootComponent : Component)
  : Op Registry RError unit :=
  _ <~ lift (assertIsComponentClass layer rootComponent) ;;
  _ <~ (fun registry =>
          (Return tt,
           {| registryStore := registryStore registry;
              _rootComponents :=
                setAdd rootComponent (_rootComponents registry);
              storeSlots := storeSlots registry |})) ;;
  let storableCount := 0 in
  storableCount <~ registerIfComponentIsStorable rootComponent storableCount ;;
  storableCount <~
    forEachOp registerIfComponentIsStorable
      (getProvidedComponents layer rootComponent) storableCount ;;
  if Nat.eqb storableCount 0 then throw (NoStorableFound rootComponent)
  else ret tt.

(** The storables registered in [before] are registered, unchanged, in
    [after]. *)
Definition keepsStorables (before after : Registry) : Prop :=
  forall name storable,
    _storables (registryStore before) !! name = Some storable ->
    _storables (registryStore after) !! name = Some storable.

(** The storable classes among some components. *)
Definition storablesAmong (components : list Component) : list Storable :=
  omap (isStorableLikeClass layer) components.

End Registration.

(** ** Sequences of calls *)

(** A call of one of the five operations, for statements about several
    calls in a row. *)
Inductive Call : Type :=
| CallLoad (params : LoadParams) (options : LoadOptions)
| CallSave (params : SaveParams) (options : SaveOptions)
| CallDelete (params : DeleteParams) (options : DeleteOptions)
| CallFind (params : FindParams) (options : FindOptions)
| CallCount (params : CountParams).

(** The name of the method called. *)
Definition methodName (call : Call) : string :=
  match call with
  | CallLoad _ _ => "load"
  | CallSave _ _ => "save"
  | CallDelete _ _ => "delete"
  | CallFind _ _ => "find"
  | CallCount _ => "count"
  end.

(** The name [_runOperation] is given by the method. *)
Definition tracedName (call : Call) : string :=
  match call with
  | CallCount _ => "find"
  | _ => methodName call
  end.

Section Calls.

Context {Storable Projection DocumentPatch B : Type}.
Context `{!@AbstractStore Storable Projection DocumentPatch B}.
Variable imports : @Imports Storable Projection DocumentPatch.

(** The store after a call whose result or error the caller has taken. *)
Definition perform (call : Call) (store : @Store Storable B)
  : @Store Storable B :=
  match call with
  | CallLoad params options => snd (load imports params options store)
  | CallSave params options => snd (save imports params options store)
  | CallDelete params options => snd (delete imports params options store)
  | CallFind params options => snd (find imports params options store)
  | CallCount params => snd (count imports params store)
  end.

Definition performAll (calls : list Call) (store : @Store Storable B)
  : @Store Storable B :=
  fold_left (fun store call => perform call store) calls store.

End Calls.

(** ** The shape of compiled expressions *)

(** The operand of an expression agrees with its operator: a plain value
    that is not a plain object for a comparison operator, a list of
    expressions for [$some], [$every] and [$not], a list of lists of
    expressions for [$and], [$or] and [$nor], at every depth. *)
Fixpoint shaped (expression : Expression) : bool :=
  match expression with
  | Expr _ operator operand =>
      match operand with
      | Plain v =>
          negb (isPlainObject v) && negb (isQuantifierOperator operator)
          && negb (isLogicalOperator operator)
      | Nested subexpressions =>
          isQuantifierOperator operator && forallb shaped subexpressions
      | NestedList operatorExpressions =>
          isLogicalOperator operator
          && forallb (forallb shaped) operatorExpressions
      end
  end.

Definition expressionPath (expression : Expression) : Path :=
  match expression with Expr path _ _ => path end.

Definition expressionOperator (expression : Expression) : Operator :=
  match expression with Expr _ operator _ => operator end.

(** The errors the compiler throws itself, as against those of the
    operator registry. *)
Definition isCompilerError (e : QueryError) : bool :=
  match e with
  | UnsupportedRootOperator _ _ | InvalidQueryShape _
  | UnexpectedObjectValue _ | TypeError _ => true
  | UnknownOperator _ _ | InvalidOperatorValue _ _ => false
  end.

(** Whatever [handleValue] emits for [v] is shaped. *)
Definition emitsShaped
  (normalize : Operator -> value -> Query -> result QueryError Operator)
  (v : value) : Prop :=
  forall subpath query added,
    handleValue normalize v [] subpath query = Return added ->
    forallb shaped added = true.

(** An error of the compiler's own, or one the registry threw. *)
Definition expectedError
  (normalize : Operator -> value -> Query -> result QueryError Operator)
  (e : QueryError) : Prop :=
  isCompilerError e = true
  \/ exists operator v query, normalize operator v query = Throw e.


(** ** The order of the keys of an object *)








(** ** The plain objects the compiler meets *)



(** ** A test double of the collaborators *)

Module Sample.

(** {a: 1, b: {c: 2}} *)
Definition attributeQuery : value :=
  VObject [("a", VNumber 1); ("b", VObject [("c", VNumber 2)])].

(** {$and: [{a: 1}, {b: 2}]} *)
Definition andQuery : value :=
  VObject [("$and", VArray [VObject [("a", VNumber 1)];
                            VObject [("b", VNumber 2)]])].

(** {a: [1, 2]} *)
Definition arrayQuery : value :=
  VObject [("a", VArray [VNumber 1; VNumber 2])].



(** {a: {b: 1, $greaterThan: 2}, $in: [3]} *)
Definition twoErrorsQuery : value :=
  VObject [("a", VObject [("b", VNumber 1); ("$greaterThan", VNumber 2)]);
           ("$in", VArray [VNumber 3])].

(** {$in: [3]} *)
Definition rootInQuery : value := VObject [("$in", VArray [VNumber 3])].

(** {a: {}} *)
Definition emptyObjectQuery : value := VObject [("a", VObject [])].

(** The registry of the spec with no alias. *)
Definition normalize := OperatorRegistry.normalizeOperatorForValue [].

(** Plain values without serialization markers are left as they are. *)
Definition unchanged (v : value) : value := v.

(** Storables are stood for by their component name. *)
Definition imports : @Imports string unit value := {|
  assertIsComponentType := fun _ => Return componentInstanceType;
  getComponentNameFromComponentClassType := fun type => type;
  getComponentNameFromComponentInstanceType := fun type => type;
  ensureComponentClass := fun storable => storable;
  getComponentName := fun storable => storable;
  prototype := fun storable => storable;
  normalizeAttributeSelector := fun selector => Return selector;
  pickFromAttributeSelector := fun document _ _ => Return document;
  deleteUndefinedProperties := fun document => document;
  serialize := fun v => v;
  deserialize := unchanged;
  buildProjection := fun _ => None;
  buildDocumentPatch := fun document => document;
  normalizeOperatorForValue := normalize
|}.

(** A backend that holds nothing and refuses every write: it reports
    absence on read, update and delete, and presence on create.  Its state
    is the log of the calls it received. *)
#[global] Instance refusingStore
  : @AbstractStore string unit value (list string) := {|
  createDocument := fun _ log => (Return false, log ++ ["createDocument"]);
  readDocument := fun _ log => (Return None, log ++ ["readDocument"]);
  updateDocument := fun _ log => (Return false, log ++ ["updateDocument"]);
  deleteDocument := fun _ log => (Return false, log ++ ["deleteDocument"]);
  findDocuments := fun _ log => (Return [], log ++ ["findDocuments"]);
  countDocuments := fun _ log => (Return 0%Z, log ++ ["countDocuments"])
|}.

Definition movie : value := VObject [("id", VString "abc123")].

(** A store with the storable [Movie] registered, tracing or not. *)
Definition store (trace : option (list (TraceEntry string)))
  : @Store string (list string) :=
  {| _storables := {["Movie" := "Movie"]}; _trace := trace; backend := [] |}.



(** A backend that accepts every write and serves the same documents on
    every read; its state counts the calls it received. *)
#[global] Instance servingStore
  : @AbstractStore string unit value nat := {|
  createDocument := fun _ calls => (Return true, S calls);
  readDocument := fun _ calls => (Return (Some movie), S calls);
  updateDocument := fun _ calls => (Return true, S calls);
  deleteDocument := fun _ calls => (Return true, S calls);
  findDocuments := fun _ calls => (Return [movie; VObject []], S calls);
  countDocuments := fun _ calls => (Return 2%Z, S calls)
|}.

Definition servedStore : @Store string nat :=
  {| _storables := {["Movie" := "Movie"]}; _trace := None; backend := 0 |}.

(** {tags: {$some: {name: "x"}}, $or: [{a: 1}, {b: {$in: [1, 2]}}]} *)
Definition nestedQuery : value :=
  VObject
    [("tags", VObject [("$some", VObject [("name", VString "x")])]);
     ("$or", VArray
               [VObject [("a", VNumber 1)];
                VObject [("b", VObject [("$in", VArray [VNumber 1; VNumber 2])])]])].


(** The components of the example of [registerRootComponent]: [Backend]
    provides the storable classes [User] and [Movie], [Frontend] provides
    nothing, and neither is a storable class; the store reference of a
    storable class is kept under its name. *)
Definition layer
  : @ComponentLayer string string nat (gmap string nat) := {|
  assertIsComponentClass := fun _ => Return tt;
  assertIsStorableLikeClass := fun _ => Return tt;
  isStorableLikeClass := fun component =>
    if String.eqb component "Backend" || String.eqb component "Frontend"
    then None else Some component;
  getProvidedComponents := fun component =>
    if String.eqb component "Backend" then ["User"; "Movie"] else [];
  componentName := fun storable => storable;
  hasStore := fun storable slots => bool_decide (is_Some (slots !! storable));
  getStore := fun storable slots =>
    match slots !! storable with
    | Some owner => Return owner
    | None => Throw (RegistryImportError "the component has no store")
    end;
  __setStore := fun storable owner slots => <[storable := owner]> slots
|}.

(** A store with nothing registered. *)
Definition emptyRegistry : @Registry string string (gmap string nat) (list string) :=
  {| registryStore := {| _storables := ∅; _trace := None; backend := [] |};
     _rootComponents := [];
     storeSlots := ∅ |}.

(** A store in which [Movie] belongs to the store of reference 7. *)
Definition foreignRegistry
  : @Registry string string (gmap string nat) (list string) :=
  {| registryStore := {| _storables := ∅; _trace := None; backend := [] |};
     _rootComponents := [];
     storeSlots := {["Movie" := 7]} |}.

End Sample.


(** * Properties *)

(** ** Loops *)

Lemma bind_Return {E A B} (a : A) (k : A -> result E B) :
  bind (Return a) k = k a.
Proof. reflexivity. Qed.


Lemma forEach_nil {E A S} (body : A -> S -> result E S) (state : S) :
  forEach body [] state = Return state.
Proof. reflexivity. Qed.

Lemma forEach_cons {E A S} (body : A -> S -> result E S) item rest state :
  forEach body (item :: rest) state
  = (state' <- body item state ;; forEach body rest state').
Proof. reflexivity. Qed.

Lemma forEach_app {E A S} (body : A -> S -> result E S) front back state :
  forEach body (front ++ back) state
  = (state' <- forEach body front state ;; forEach body back state').
Proof.
  revert state. induction front as [|item front IH]; intros state.
  - reflexivity.
  - rewrite <- app_comm_cons, !forEach_cons.
    destruct (body item state) as [state'|e]; simpl; [apply IH | reflexivity].
Qed.

Lemma forEach_ext {E A S} (body body' : A -> S -> result E S) items :
  Forall (fun item => forall state, body item state = body' item state) items ->
  forall state, forEach body items state = forEach body' items state.
Proof.
  induction 1 as [|item rest Hitem _ IH]; intros state.
  - reflexivity.
  - rewrite !forEach_cons, Hitem.
    destruct (body' item state); simpl; [apply IH | reflexivity].
Qed.

Lemma forEach_appends {E A X} (body : A -> list X -> result E (list X)) items :
  Forall (appends body) items ->
  forall state,
    forEach body items state
    = (added <- forEach body items [] ;; Return (state ++ added)).
Proof.
  induction 1 as [|item rest Hitem _ IH]; intros state.
  - rewrite !forEach_nil. simpl. by rewrite app_nil_r.
  - rewrite !forEach_cons, (Hitem state).
    destruct (body item []) as [added|e]; simpl; [|reflexivity].
    rewrite (IH (state ++ added)), (IH added).
    destruct (forEach body rest []) as [added'|e]; simpl; [|reflexivity].
    by rewrite app_assoc.
Qed.

(** The outcome of a loop of appending bodies, started on nothing, is the
    concatenation, in the order of the items, of what each body adds. *)
Lemma forEach_concat {E A X} (body : A -> list X -> result E (list X)) items :
  Forall (appends body) items ->
  forall added,
    forEach body items [] = Return added <->
    exists parts,
      Forall2 (fun item part => body item [] = Return part) items parts
      /\ added = concat parts.
Proof.
  induction 1 as [|item rest Hitem Hrest IH]; intros added.
  - rewrite forEach_nil. split.
    + intros [= <-]. exists []. split; [constructor | reflexivity].
    + intros (parts & Hparts & ->). inversion Hparts. reflexivity.
  - rewrite forEach_cons. split.
    + destruct (body item []) as [part|e] eqn:Hbody; simpl; [|discriminate].
      rewrite (forEach_appends body rest Hrest part).
      destruct (forEach body rest []) as [added'|e] eqn:Hloop; simpl;
        [|discriminate].
      intros [= <-].
      destruct (proj1 (IH added') eq_refl) as (parts & Hparts & ->).
      exists (part :: parts). split; [by constructor | reflexivity].
    + intros (parts & Hparts & ->).
      inversion Hparts as [|? part ? parts' Hbody Hparts']; subst.
      rewrite Hbody. simpl.
      rewrite (forEach_appends body rest Hrest part).
      rewrite (proj2 (IH (concat parts')));
        [reflexivity | by exists parts'].
Qed.

Lemma mapM_cons {E A B} (f : A -> result E B) item rest :
  mapM f (item :: rest)
  = (b <- f item ;; bs <- mapM f rest ;; Return (b :: bs)).
Proof. reflexivity. Qed.

Lemma mapM_Forall2 {E A B} (f : A -> result E B) items outcomes :
  mapM f items = Return outcomes <->
  Forall2 (fun item outcome => f item = Return outcome) items outcomes.
Proof.
  revert outcomes. induction items as [|item rest IH]; intros outcomes.
  - split.
    + intros [= <-]. constructor.
    + inversion 1. reflexivity.
  - rewrite mapM_cons. split.
    + destruct (f item) as [b|e] eqn:Hf; simpl; [|discriminate].
      destruct (mapM f rest) as [bs|e] eqn:Hrest; simpl; [|discriminate].
      intros [= <-]. constructor; [done | by apply IH].
    + inversion 1 as [|? b ? bs Hf Hrest]; subst.
      rewrite Hf. simpl. apply IH in Hrest. rewrite Hrest. reflexivity.
Qed.

(** ** Keys *)

Lemma scanKeys_existsb names :
  scanKeys names
  = (existsb (fun name => negb (looksLikeOperator name)) names,
     existsb looksLikeOperator names).
Proof.
  unfold scanKeys.
  assert (Hgen : forall a o,
    fold_left
      (fun '(objectContainsAttributes, objectContainsOperators) name =>
         if looksLikeOperator name
         then (objectContainsAttributes, true)
         else (true, objectContainsOperators))
      names (a, o)
    = (a || existsb (fun name => negb (looksLikeOperator name)) names,
       o || existsb looksLikeOperator names)).
  { induction names as [|name names IH]; intros a o; simpl.
    - by rewrite !orb_false_r.
    - destruct (looksLikeOperator name); simpl; rewrite IH; simpl.
      + by rewrite orb_true_r.
      + by rewrite orb_true_r. }
  apply Hgen.
Qed.


Lemma logical_not_quantifier operator :
  isLogicalOperator operator = true -> isQuantifierOperator operator = false.
Proof.
  unfold isLogicalOperator, isQuantifierOperator.
  rewrite !orb_true_iff, !String.eqb_eq. intros [[-> | ->] | ->]; reflexivity.
Qed.

Lemma logical_looksLikeOperator operator :
  isLogicalOperator operator = true -> looksLikeOperator operator = true.
Proof.
  unfold isLogicalOperator.
  rewrite !orb_true_iff, !String.eqb_eq. intros [[-> | ->] | ->]; reflexivity.
Qed.

(** ** The compiler's equations *)

Section CompilerEquations.

Variable normalize : Operator -> value -> Query -> result QueryError Operator.

Lemma handleValue_plain v expressions subpath query :
  isPlainObject v = false ->
  handleValue normalize v expressions subpath query
  = Return (expressions ++ [equalExpression subpath v]).
Proof. destruct v; try reflexivity. discriminate. Qed.

Lemma handleValue_object object expressions subpath query :
  handleValue normalize (VObject object) expressions subpath query
  = match scanKeys (keys object) with
    | (true, true) => Throw (InvalidQueryShape object)
    | (true, false) => build normalize object expressions subpath
    | (false, true) =>
        forEach
          (fun entry expressions =>
             handleOperator normalize (fst entry) (snd entry) expressions
               subpath query)
          object expressions
    | (false, false) => Return expressions
    end.
Proof.
  simpl. destruct (scanKeys (keys object)) as [[|] [|]]; try reflexivity.
  apply forEach_ext. apply Forall_forall. intros [operator v] _ state.
  reflexivity.
Qed.

Lemma build_unfold query expressions path :
  build normalize query expressions path
  = forEach (buildEntry normalize query path) query expressions.
Proof. reflexivity. Qed.

Lemma buildEntry_attribute query path name v expressions :
  looksLikeOperator name = false ->
  buildEntry normalize query path (name, v) expressions
  = handleValue normalize v expressions (extendPath path name) query.
Proof. intros Hname. unfold buildEntry, buildEntry_. by rewrite Hname. Qed.

Lemma buildEntry_logical query path operator v expressions :
  isLogicalOperator operator = true ->
  buildEntry normalize query path (operator, v) expressions
  = handleOperator normalize operator v expressions path query.
Proof.
  intros Hlogical. unfold buildEntry, buildEntry_.
  by rewrite (logical_looksLikeOperator _ Hlogical), Hlogical.
Qed.

Lemma buildEntry_unsupported query path operator v expressions :
  looksLikeOperator operator = true ->
  isLogicalOperator operator = false ->
  buildEntry normalize query path (operator, v) expressions
  = Throw (UnsupportedRootOperator operator query).
Proof.
  intros Hoperator Hlogical. unfold buildEntry, buildEntry_.
  by rewrite Hoperator, Hlogical.
Qed.

(** What [handleOperator] adds does not depend on the expressions already
    collected. *)
Lemma handleOperator_appends operator v path query expressions :
  handleOperator normalize operator v expressions path query
  = (added <- handleOperator normalize operator v [] path query ;;
     Return (expressions ++ added)).
Proof.
  unfold handleOperator, handleOperator_.
  destruct (normalize operator v query) as [normalized|e]; simpl;
    [|reflexivity].
  destruct (isQuantifierOperator normalized).
  { destruct (handleValue normalize v [] "" query); reflexivity. }
  destruct (isLogicalOperator normalized).
  { destruct v; try reflexivity.
    destruct (mapM _ elements); reflexivity. }
  destruct (isPlainObject v); reflexivity.
Qed.

(** The same for [handleValue], at every depth of the query. *)
Lemma handleValue_appends v :
  forall expressions subpath query,
    handleValue normalize v expressions subpath query
    = (added <- handleValue normalize v [] subpath query ;;
       Return (expressions ++ added)).
Proof.
  induction v as [| | | | | elements _ | object IH | ] using value_nested_ind;
    intros expressions subpath query; try reflexivity.
  rewrite !handleValue_object.
  destruct (scanKeys (keys object)) as [[|] [|]]; simpl.
  - reflexivity.
  - rewrite !build_unfold. apply forEach_appends.
    eapply Forall_impl; [apply IH|]. intros [name v] Hv state. simpl in Hv.
    unfold buildEntry, buildEntry_.
    destruct (looksLikeOperator name).
    + destruct (isLogicalOperator name); [|reflexivity].
      apply handleOperator_appends.
    + apply Hv.
  - apply forEach_appends. apply Forall_forall. intros [operator v] _ state.
    apply handleOperator_appends.
  - by rewrite app_nil_r.
Qed.

Lemma buildEntry_appends query path entry :
  appends (buildEntry normalize query path) entry.
Proof.
  destruct entry as [name v]. intros state.
  unfold buildEntry, buildEntry_.
  destruct (looksLikeOperator name).
  - destruct (isLogicalOperator name); [|reflexivity].
    apply handleOperator_appends.
  - apply handleValue_appends.
Qed.

Lemma build_appends query expressions path :
  build normalize query expressions path
  = (added <- build normalize query [] path ;; Return (expressions ++ added)).
Proof.
  rewrite !build_unfold. apply forEach_appends.
  apply Forall_forall. intros entry _. apply buildEntry_appends.
Qed.

End CompilerEquations.

(** ** Paths *)

Lemma string_append_assoc (s t u : string) :
  (s +:+ t) +:+ u = s +:+ t +:+ u.
Proof.
  induction s as [|c s IH]; [reflexivity|].
  change (String c ((s +:+ t) +:+ u) = String c (s +:+ t +:+ u)).
  by rewrite IH.
Qed.

Lemma string_append_nonempty (s t : string) : t <> "" -> s +:+ t <> "".
Proof.
  destruct s as [|c s]; [done|]. intros _. discriminate.
Qed.

Lemma extendPath_root name : extendPath "" name = name.
Proof. reflexivity. Qed.

Lemma extendPath_nested path name :
  path <> "" -> extendPath path name = path +:+ "." +:+ name.
Proof.
  intros Hpath. unfold extendPath.
  destruct (String.eqb_spec path ""); [contradiction | reflexivity].
Qed.

(** Below a non-empty path the compiler's path is the dotted chain. *)
Lemma pathAlong_nested chain :
  forall path, path <> "" -> pathAlong path chain = dotJoin (path :: chain).
Proof.
  induction chain as [|name chain IH]; intros path Hpath.
  - reflexivity.
  - unfold pathAlong. simpl fold_left. fold (pathAlong (extendPath path name) chain).
    rewrite extendPath_nested by done.
    rewrite IH by (apply string_append_nonempty; discriminate).
    unfold dotJoin. destruct chain as [|next chain]; simpl.
    + reflexivity.
    + by rewrite !string_append_assoc.
Qed.

(** From the root it is the dotted chain as soon as the first key is not
    empty. *)
Lemma pathAlong_root name chain :
  name <> "" -> pathAlong "" (name :: chain) = dotJoin (name :: chain).
Proof. intros Hname. apply (pathAlong_nested chain name Hname). Qed.

(** With an empty first key the separator after it is missing. *)
Lemma pathAlong_empty_key chain : pathAlong "" ("" :: chain) = pathAlong "" chain.
Proof. reflexivity. Qed.

(** ** Queries made of attributes *)

Lemma attributesOnly_operatorFree v :
  attributesOnly v = true -> operatorFree v = true.
Proof.
  induction v as [| | | | | elements _ | object IH | ] using value_nested_ind;
    try reflexivity.
  simpl. rewrite !forallb_forall. intros Hall entry Hin.
  specialize (Hall entry Hin). apply andb_true_iff in Hall as [Hname Hv].
  unfold isAttributeName in Hname. apply andb_true_iff in Hname as [Hname _].
  rewrite Hname. simpl. rewrite Forall_forall in IH. apply IH; [|done].
  by apply list_elem_of_In.
Qed.

Lemma operatorFree_keys object :
  operatorFree (VObject object) = true ->
  existsb looksLikeOperator (keys object) = false.
Proof.
  induction object as [|[name v] object IH]; simpl; [reflexivity|].
  intros Hall. apply andb_true_iff in Hall as [Hentry Hrest].
  apply andb_true_iff in Hentry as [Hname _].
  apply negb_true_iff in Hname. rewrite Hname. simpl. by apply IH.
Qed.

Lemma leaves_cons name v object :
  leaves (VObject ((name, v) :: object))
  = map (fun leaf => (name :: fst leaf, snd leaf)) (leaves v)
    ++ leaves (VObject object).
Proof. reflexivity. Qed.

Section AttributeQueries.

Variable normalize : Operator -> value -> Query -> result QueryError Operator.

Lemma forEach_attributes query path entries :
  Forall
    (fun entry =>
       operatorFree (snd entry) = true ->
       forall expressions subpath query,
         handleValue normalize (snd entry) expressions subpath query
         = Return (expressions
                   ++ map (leafExpression subpath) (leaves (snd entry))))
    entries ->
  operatorFree (VObject entries) = true ->
  forall expressions,
    forEach (buildEntry normalize query path) entries expressions
    = Return (expressions
              ++ map (leafExpression path) (leaves (VObject entries))).
Proof.
  induction 1 as [|[name v] entries Hentry _ IH]; intros Hfree expressions.
  - rewrite forEach_nil. simpl. by rewrite app_nil_r.
  - simpl in Hfree. apply andb_true_iff in Hfree as [Hhead Hrest].
    apply andb_true_iff in Hhead as [Hname Hv].
    apply negb_true_iff in Hname.
    rewrite forEach_cons, buildEntry_attribute by done.
    rewrite (Hentry Hv). simpl bind.
    rewrite (IH Hrest), leaves_cons, map_app, map_map, <- app_assoc.
    reflexivity.
Qed.

(** On a value without operator keys [handleValue] adds one [$equal]
    expression per leaf, in order, at the path built along the leaf's keys. *)
Lemma handleValue_operatorFree v :
  operatorFree v = true ->
  forall expressions subpath query,
    handleValue normalize v expressions subpath query
    = Return (expressions ++ map (leafExpression subpath) (leaves v)).
Proof.
  induction v as [| | | | | elements _ | object IH | ] using value_nested_ind;
    intros Hfree expressions subpath query; try reflexivity.
  rewrite handleValue_object, scanKeys_existsb.
  rewrite (operatorFree_keys object Hfree).
  destruct (existsb _ (keys object)) eqn:Hattributes.
  - rewrite build_unfold. by apply forEach_attributes.
  - destruct object as [|[name v] object].
    + simpl. by rewrite app_nil_r.
    + simpl in Hattributes, Hfree.
      apply andb_true_iff in Hfree as [Hhead _].
      apply andb_true_iff in Hhead as [Hname _].
      rewrite Hname in Hattributes. discriminate.
Qed.

End AttributeQueries.

Lemma leaves_attribute_chains v :
  attributesOnly v = true ->
  Forall (fun leaf => Forall (fun name => isAttributeName name = true) (fst leaf))
    (leaves v).
Proof.
  induction v as [| | | | | elements _ | object IH | ] using value_nested_ind;
    intros Hall; try (repeat constructor).
  induction IH as [|[name v] object Hv _ IHobject].
  - constructor.
  - simpl in Hall. apply andb_true_iff in Hall as [Hhead Hrest].
    apply andb_true_iff in Hhead as [Hname Hvalue].
    rewrite leaves_cons. apply Forall_app. split.
    + apply Forall_map. eapply Forall_impl; [apply (Hv Hvalue)|].
      intros leaf Hleaf. simpl. by constructor.
    + by apply IHobject.
Qed.

Lemma isAttributeName_nonempty name : isAttributeName name = true -> name <> "".
Proof.
  unfold isAttributeName. intros Hname ->. by rewrite andb_false_r in Hname.
Qed.

Lemma pathAlong_attributes chain :
  Forall (fun name => isAttributeName name = true) chain ->
  pathAlong "" chain = dotJoin chain.
Proof.
  destruct 1 as [|name chain Hname _]; [reflexivity|].
  apply pathAlong_root. by apply isAttributeName_nonempty.
Qed.

(** ** Attribute queries (C1) *)

(** C1.  A well-formed query made of attribute names only (every key, at
    every level of nested plain objects, is a non-empty name that is not an
    operator token) compiles to exactly one expression per leaf value, in
    order: its path is the dot-joined chain of keys from the root and its
    operator is [$equal]. *)
Theorem attribute_query_expressions {Storable : Type}
  (deserialize : value -> value)
  (normalize : Operator -> value -> Query -> result QueryError Operator)
  (storable : Storable) (query : value) (documentQuery : Query) :
  deserialize query = VObject documentQuery ->
  attributesOnly (VObject documentQuery) = true ->
  toDocumentExpressions deserialize normalize storable query
  = Return (map (fun leaf => Expr (dotJoin (fst leaf)) "$equal" (Plain (snd leaf)))
              (leaves (VObject documentQuery))).
Proof.
  intros Hdocument Hattributes.
  unfold toDocumentExpressions, toDocument. rewrite Hdocument. simpl bind.
  rewrite build_unfold.
  rewrite (forEach_attributes normalize documentQuery "" documentQuery).
  - simpl app. f_equal. apply map_ext_in. intros [chain leaf] Hin.
    unfold leafExpression, equalExpression. simpl. f_equal.
    apply pathAlong_attributes.
    pose proof (leaves_attribute_chains _ Hattributes) as Hchains.
    rewrite Forall_forall in Hchains.
    apply (Hchains (chain, leaf)). by apply list_elem_of_In.
  - apply Forall_forall. intros entry _ Hfree.
    by apply handleValue_operatorFree.
  - by apply attributesOnly_operatorFree.
Qed.

(** {a: 1, b: {c: 2}} => [['a', '$equal', 1], ['b.c', '$equal', 2]] *)
Lemma attribute_query_example :
  toDocumentExpressions Sample.unchanged Sample.normalize tt
    Sample.attributeQuery
  = Return [Expr "a" "$equal" (Plain (VNumber 1));
            Expr "b.c" "$equal" (Plain (VNumber 2))].
Proof.
  exact (attribute_query_expressions Sample.unchanged Sample.normalize tt
           Sample.attributeQuery
           [("a", VNumber 1); ("b", VObject [("c", VNumber 2)])]
           eq_refl eq_refl).
Defined.

(** The exact path law, whatever the keys: the path of a leaf is built by
    [extendPath] along its chain.  With an empty first key the dot after it
    is missing: {"": {a: 1}} => [['a', '$equal', 1]]. *)
Lemma operatorFree_query_expressions {Storable : Type}
  (deserialize : value -> value)
  (normalize : Operator -> value -> Query -> result QueryError Operator)
  (storable : Storable) (query : value) (documentQuery : Query) :
  deserialize query = VObject documentQuery ->
  operatorFree (VObject documentQuery) = true ->
  toDocumentExpressions deserialize normalize storable query
  = Return (map (leafExpression "") (leaves (VObject documentQuery))).
Proof.
  intros Hdocument Hfree.
  unfold toDocumentExpressions, toDocument. rewrite Hdocument. simpl bind.
  rewrite build_unfold.
  rewrite (forEach_attributes normalize documentQuery "" documentQuery);
    [reflexivity | | done].
  apply Forall_forall. intros entry _ Hentry.
  by apply handleValue_operatorFree.
Qed.

Lemma empty_key_example :
  toDocumentExpressions Sample.unchanged Sample.normalize tt
    (VObject [("", VObject [("a", VNumber 1)])])
  = Return [Expr "a" "$equal" (Plain (VNumber 1))]
  /\ dotJoin [""; "a"] = ".a".
Proof.
  split; [|reflexivity].
  exact (operatorFree_query_expressions Sample.unchanged Sample.normalize tt
           (VObject [("", VObject [("a", VNumber 1)])])
           [("", VObject [("a", VNumber 1)])] eq_refl eq_refl).
Defined.

(** ** The default operator (C2) *)

(** C2, as the code has it.  A value that is not a plain object, an array
    included, supplied without an operator adds exactly one expression, with
    the operator [$equal]. *)
Theorem default_operator_is_equal
  (normalize : Operator -> value -> Query -> result QueryError Operator)
  (v : value) (expressions : list Expression) (subpath : Path) (query : Query) :
  isPlainObject v = false ->
  handleValue normalize v expressions subpath query
  = Return (expressions ++ [Expr subpath "$equal" (Plain v)]).
Proof. apply handleValue_plain. Qed.

Lemma default_operator_of_array :
  handleValue Sample.normalize (VArray [VNumber 1; VNumber 2]) [] "a" []
  = Return [Expr "a" "$equal" (Plain (VArray [VNumber 1; VNumber 2]))].
Proof.
  exact (default_operator_is_equal Sample.normalize
           (VArray [VNumber 1; VNumber 2]) [] "a" [] eq_refl).
Defined.

(** C2, as the specification words it, fails: {a: [1, 2]} compiles to an [$equal]
    expression, not to an [$in] expression. *)
Lemma array_value_is_not_membership :
  toDocumentExpressions Sample.unchanged Sample.normalize tt Sample.arrayQuery
  = Return [Expr "a" "$equal" (Plain (VArray [VNumber 1; VNumber 2]))]
  /\ toDocumentExpressions Sample.unchanged Sample.normalize tt
       Sample.arrayQuery
     <> Return [Expr "a" "$in" (Plain (VArray [VNumber 1; VNumber 2]))].
Proof. split; [reflexivity | discriminate]. Qed.

(** ** Empty objects (C10) *)

(** C10.  At every path an empty plain object adds no expression, and a
    query such as {a: {}} compiles to the empty list. *)
Theorem empty_object_emits_nothing
  (normalize : Operator -> value -> Query -> result QueryError Operator) :
  (forall expressions subpath query,
      handleValue normalize (VObject []) expressions subpath query
      = Return expressions)
  /\ (forall (Storable : Type) (deserialize : value -> value)
        (storable : Storable) (query : value) (name : string),
         deserialize query = VObject [(name, VObject [])] ->
         looksLikeOperator name = false ->
         toDocumentExpressions deserialize normalize storable query
         = Return []).
Proof.
  split.
  - reflexivity.
  - intros Storable deserialize storable query name Hdocument Hname.
    unfold toDocumentExpressions, toDocument. rewrite Hdocument. simpl bind.
    rewrite build_unfold, forEach_cons, buildEntry_attribute by done.
    reflexivity.
Qed.

Lemma empty_object_example :
  handleValue Sample.normalize (VObject []) [] "a" [] = Return []
  /\ toDocumentExpressions Sample.unchanged Sample.normalize tt
       Sample.emptyObjectQuery
     = Return [].
Proof.
  destruct (empty_object_emits_nothing Sample.normalize) as [Hvalue Hquery].
  split.
  - apply Hvalue.
  - exact (Hquery unit Sample.unchanged tt Sample.emptyObjectQuery "a"
             eq_refl eq_refl).
Defined.

(** ** Mixed levels (C3) *)




Section MixedLevels.

Variable normalize : Operator -> value -> Query -> result QueryError Operator.







End MixedLevels.




(** ** Logical operators (C4) *)

Lemma handleOperator_logical
  (normalize : Operator -> value -> Query -> result QueryError Operator)
  operator normalized values expressions path query :
  normalize operator (VArray values) query = Return normalized ->
  isLogicalOperator normalized = true ->
  handleOperator normalize operator (VArray values) expressions path query
  = (operatorExpressions <-
       mapM (fun element => handleValue normalize element [] "" query) values ;;
     Return (expressions
             ++ [Expr path normalized (NestedList operatorExpressions)])).
Proof.
  intros Hnormalized Hlogical. unfold handleOperator, handleOperator_.
  rewrite Hnormalized. simpl bind.
  by rewrite (logical_not_quantifier _ Hlogical), Hlogical.
Qed.

(** C4.  {$and: [{a: 1}, {b: 2}]} at the root compiles to
    [["", "$and", [[["a","$equal",1]], [["b","$equal",2]]]]]; and in general
    every element of the array of an [$and], [$or] or [$nor] is compiled on
    its own, from no expression and the empty path, the list of the
    outcomes keeping the order of the array. *)
Theorem logical_operator_compiles_each_element :
  (forall (Storable : Type) (deserialize : value -> value)
      (aliases : list (Operator * Operator)) (storable : Storable),
      deserialize Sample.andQuery = Sample.andQuery ->
      toDocumentExpressions deserialize
        (OperatorRegistry.normalizeOperatorForValue aliases) storable
        Sample.andQuery
      = Return
          [Expr "" "$and"
             (NestedList [[Expr "a" "$equal" (Plain (VNumber 1))];
                          [Expr "b" "$equal" (Plain (VNumber 2))]])])
  /\ (forall (normalize : Operator -> value -> Query -> result QueryError Operator)
        operator normalized values outcomes expressions path query,
         normalize operator (VArray values) query = Return normalized ->
         isLogicalOperator normalized = true ->
         Forall2
           (fun element outcome =>
              handleValue normalize element [] "" query = Return outcome)
           values outcomes ->
         handleOperator normalize operator (VArray values) expressions path query
         = Return (expressions ++ [Expr path normalized (NestedList outcomes)])).
Proof.
  split.
  - intros Storable deserialize aliases storable Hdocument.
    unfold toDocumentExpressions, toDocument. rewrite Hdocument.
    reflexivity.
  - intros normalize operator normalized values outcomes expressions path query
      Hnormalized Hlogical Houtcomes.
    rewrite (handleOperator_logical _ _ _ _ _ _ _ Hnormalized Hlogical).
    apply mapM_Forall2 in Houtcomes. by rewrite Houtcomes.
Qed.

Lemma logical_operator_example :
  toDocumentExpressions Sample.unchanged Sample.normalize tt Sample.andQuery
  = Return
      [Expr "" "$and"
         (NestedList [[Expr "a" "$equal" (Plain (VNumber 1))];
                      [Expr "b" "$equal" (Plain (VNumber 2))]])]
  /\ handleOperator Sample.normalize "$nor"
       (VArray [VObject [("b", VNumber 2)]; VObject [("a", VNumber 1)]])
       [] "p" []
     = Return
         [Expr "p" "$nor"
            (NestedList [[Expr "b" "$equal" (Plain (VNumber 2))];
                         [Expr "a" "$equal" (Plain (VNumber 1))]])].
Proof.
  destruct logical_operator_compiles_each_element as [Hexample Hgeneral].
  split.
  - exact (Hexample unit Sample.unchanged [] tt eq_refl).
  - apply (Hgeneral Sample.normalize "$nor" "$nor"
             [VObject [("b", VNumber 2)]; VObject [("a", VNumber 1)]]
             [[Expr "b" "$equal" (Plain (VNumber 2))];
              [Expr "a" "$equal" (Plain (VNumber 1))]]
             [] "p" [] eq_refl eq_refl).
    repeat constructor.
Defined.

(** ** Operators at the root (C5) *)

Lemma build_unsupported
  (normalize : Operator -> value -> Query -> result QueryError Operator)
  query expressions path entries :
  existsb (fun name => looksLikeOperator name && negb (isLogicalOperator name))
    (keys entries) = true ->
  isReturn (forEach (buildEntry normalize query path) entries expressions)
  = false.
Proof.
  revert expressions.
  induction entries as [|[name v] entries IH]; intros expressions Hkeys;
    [discriminate|].
  rewrite forEach_cons. simpl in Hkeys.
  destruct (looksLikeOperator name) eqn:Hname;
    [destruct (isLogicalOperator name) eqn:Hlogical|]; simpl in Hkeys.
  - destruct (buildEntry normalize query path (name, v) expressions);
      [by apply IH | reflexivity].
  - by rewrite buildEntry_unsupported.
  - destruct (buildEntry normalize query path (name, v) expressions);
      [by apply IH | reflexivity].
Qed.

(** C5, as the code has it.  A query with a root key that is an operator
    token other than [$and], [$or] and [$nor] never compiles; the error is
    [UnsupportedRootOperator], naming that operator and quoting the query,
    when the entries before the key compile; when an entry before it
    fails, the error thrown is the one of that entry.  A root [$and], [$or]
    or [$nor] is handed to [handleOperator]. *)
Theorem unsupported_root_operator {Storable : Type}
  (deserialize : value -> value)
  (normalize : Operator -> value -> Query -> result QueryError Operator)
  (storable : Storable) (query : value)
  (before after : Query) (operator : Operator) (v : value) :
  deserialize query = VObject (before ++ (operator, v) :: after) ->
  looksLikeOperator operator = true ->
  (isLogicalOperator operator = false ->
   isReturn (toDocumentExpressions deserialize normalize storable query) = false
   /\ (isReturn
         (forEach
            (buildEntry normalize (before ++ (operator, v) :: after) "")
            before [])
       = true ->
       toDocumentExpressions deserialize normalize storable query
       = Throw (UnsupportedRootOperator operator
                  (before ++ (operator, v) :: after)))
   /\ (forall e,
          forEach
            (buildEntry normalize (before ++ (operator, v) :: after) "")
            before []
          = Throw e ->
          toDocumentExpressions deserialize normalize storable query
          = Throw e))
  /\ (isLogicalOperator operator = true ->
      forall expressions,
        buildEntry normalize (before ++ (operator, v) :: after) ""
          (operator, v) expressions
        = handleOperator normalize operator v expressions ""
            (before ++ (operator, v) :: after)).
Proof.
  intros Hdocument Hoperator. split.
  - intros Hlogical.
    unfold toDocumentExpressions, toDocument. rewrite Hdocument. simpl bind.
    rewrite build_unfold. split; [|split].
    + apply build_unsupported. unfold keys.
      rewrite map_app, existsb_app. simpl.
      by rewrite Hoperator, Hlogical, orb_true_r.
    + rewrite forEach_app.
      destruct (forEach _ before []) as [expressions|e]; [|discriminate].
      intros _. rewrite bind_Return.
      by rewrite forEach_cons, buildEntry_unsupported.
    + intros e Hbefore. by rewrite forEach_app, Hbefore.
  - intros Hlogical expressions. by apply buildEntry_logical.
Qed.

(** {$in: [3]} fails with the error naming [$in]; in
    {a: {b: 1, $greaterThan: 2}, $in: [3]} the entry [a] fails before [$in]
    is reached, and its error is the one thrown. *)
Lemma unsupported_root_operator_example :
  toDocumentExpressions Sample.unchanged Sample.normalize tt Sample.rootInQuery
  = Throw (UnsupportedRootOperator "$in" [("$in", VArray [VNumber 3])])
  /\ toDocumentExpressions Sample.unchanged Sample.normalize tt
       Sample.twoErrorsQuery
     = Throw (InvalidQueryShape
                [("b", VNumber 1); ("$greaterThan", VNumber 2)]).
Proof.
  split.
  - exact (proj1
             (proj2
                (proj1
                   (unsupported_root_operator Sample.unchanged Sample.normalize
                      tt Sample.rootInQuery [] [] "$in" (VArray [VNumber 3])
                      eq_refl eq_refl)
                   eq_refl))
             eq_refl).
  - exact (proj2
             (proj2
                (proj1
                   (unsupported_root_operator Sample.unchanged Sample.normalize
                      tt Sample.twoErrorsQuery
                      [("a", VObject [("b", VNumber 1);
                                      ("$greaterThan", VNumber 2)])]
                      [] "$in" (VArray [VNumber 3])
                      eq_refl eq_refl)
                   eq_refl))
             _ eq_refl).
Defined.

(** C5, as the specification words it, fails when an earlier entry fails first:
    the root keys of {a: {b: 1, $greaterThan: 2}, $in: [3]} include [$in],
    and the error is the one of the mixed object under [a]. *)
Lemma earlier_error_wins :
  existsb (String.eqb "$in")
    (keys [("a", VObject [("b", VNumber 1); ("$greaterThan", VNumber 2)]);
           ("$in", VArray [VNumber 3])])
  = true
  /\ looksLikeOperator "$in" = true
  /\ isLogicalOperator "$in" = false
  /\ toDocumentExpressions Sample.unchanged Sample.normalize tt
       Sample.twoErrorsQuery
     = Throw (InvalidQueryShape
                [("b", VNumber 1); ("$greaterThan", VNumber 2)]).
Proof. repeat split. Qed.

(** ** Determinism and order (C9) *)

(** What a successful [handleOperator] adds: one expression, at the path it
    was given, with the normalised operator. *)
Lemma handleOperator_Return
  (normalize : Operator -> value -> Query -> result QueryError Operator)
  operator v expressions path query outcome :
  handleOperator normalize operator v expressions path query = Return outcome ->
  exists normalized operand,
    normalize operator v query = Return normalized
    /\ outcome = expressions ++ [Expr path normalized operand]
    /\ match operand with
       | Plain v' =>
           v' = v /\ isPlainObject v = false
           /\ isQuantifierOperator normalized = false
           /\ isLogicalOperator normalized = false
       | Nested subexpressions =>
           isQuantifierOperator normalized = true
           /\ handleValue normalize v [] "" query = Return subexpressions
       | NestedList operatorExpressions =>
           isLogicalOperator normalized = true
           /\ exists values,
                v = VArray values
                /\ Forall2
                     (fun element outcome =>
                        handleValue normalize element [] "" query
                        = Return outcome)
                     values operatorExpressions
       end.
Proof.
  unfold handleOperator, handleOperator_.
  destruct (normalize operator v query) as [normalized|e]; [|discriminate].
  rewrite bind_Return.
  destruct (isQuantifierOperator normalized) eqn:Hquantifier.
  { destruct (handleValue normalize v [] "" query) as [subexpressions|e]
      eqn:Hvalue; [|discriminate].
    rewrite bind_Return. intros [= <-].
    exists normalized, (Nested subexpressions). by repeat split. }
  destruct (isLogicalOperator normalized) eqn:Hlogical.
  { destruct v as [| | | | | values | |]; try discriminate.
    destruct (mapM _ values) as [operatorExpressions|e] eqn:Hmap;
      [|discriminate].
    rewrite bind_Return. intros [= <-].
    exists normalized, (NestedList operatorExpressions).
    repeat split; [done|]. exists values. split; [done|].
    by apply mapM_Forall2. }
  destruct (isPlainObject v) eqn:Hplain; [discriminate|].
  intros [= <-]. exists normalized, (Plain v). by repeat split.
Qed.











(** ** The store facade *)

Section StoreProperties.

Context {Storable Projection DocumentPatch B : Type}.
Context `{!@AbstractStore Storable Projection DocumentPatch B}.
Variable imports : @Imports Storable Projection DocumentPatch.

Abbreviation Error := (StoreError Storable).
Abbreviation Facade := (Op (@Store Storable B) Error).

Lemma bindOp_Return {A R} (m : Facade A) (k : A -> Facade R) store a store' :
  m store = (Return a, store') -> bindOp m k store = k a store'.
Proof. intros Hm. unfold bindOp. by rewrite Hm. Qed.


Lemma await_outcome {A} (call : Op B Error A) store outcome backend' :
  call (backend store) = (outcome, backend') ->
  await call store
  = (outcome,
     {| _storables := _storables store; _trace := _trace store;
        backend := backend' |}).
Proof. intros Hcall. unfold await. by rewrite Hcall. Qed.

(** *** Computations that leave the trace alone *)

Lemma keepsTrace_ret {A} (a : A) : keepsTrace (ret a : Facade A).
Proof. intros store. reflexivity. Qed.

Lemma keepsTrace_throw {A} (e : Error) : keepsTrace (throw e : Facade A).
Proof. intros store. reflexivity. Qed.

Lemma keepsTrace_lift {A} (r : result Error A) :
  keepsTrace (lift r : Facade A).
Proof. intros store. reflexivity. Qed.

Lemma keepsTrace_await {A} (call : Op B Error A) : keepsTrace (await call).
Proof. intros store. unfold await. by destruct (call (backend store)). Qed.

Lemma keepsTrace_bindOp {A R} (m : Facade A) (k : A -> Facade R) :
  keepsTrace m -> (forall a, keepsTrace (k a)) -> keepsTrace (bindOp m k).
Proof.
  intros Hm Hk store. unfold bindOp. specialize (Hm store).
  destruct (m store) as [[a|e] store']; simpl in *; [|done].
  by rewrite Hk.
Qed.

Lemma getStorableOfType_store type (store : @Store Storable B) :
  snd (getStorableOfType imports type store) = store.
Proof.
  unfold getStorableOfType, _getStorableOfType, _getStorable, bindOp, lift,
    ret, throw.
  destruct (assertIsComponentType imports type) as [kind|e]; [|reflexivity].
  destruct kind; simpl.
  - by destruct (_storables store !! _).
  - by destruct (_storables store !! _).
Qed.

Lemma keepsTrace_getStorableOfType type :
  keepsTrace (getStorableOfType (B:=B) imports type).
Proof. intros store. by rewrite getStorableOfType_store. Qed.

Ltac keeps_trace :=
  cbv zeta;
  repeat first
    [ apply keepsTrace_ret
    | apply keepsTrace_throw
    | apply keepsTrace_lift
    | apply keepsTrace_await
    | apply keepsTrace_getStorableOfType
    | apply keepsTrace_bindOp; [|intros ?]
    | match goal with
      | |- keepsTrace (match ?x with _ => _ end) => destruct x
      end ].

(** *** Tracing *)

(** With tracing on, [_runOperation] around a computation that leaves the
    trace alone hands on the outcome as it is and appends one entry. *)
Lemma runOperation_traced {R} (toResult : R -> OperationResult)
  name parameters opts (func : Facade R) store trace :
  keepsTrace func ->
  _trace store = Some trace ->
  fst (_runOperation toResult name parameters opts func store)
  = fst (func store)
  /\ _trace (snd (_runOperation toResult name parameters opts func store))
     = Some (trace ++
             [ {| operation := name; params := parameters; options := opts;
                  result_ :=
                    match fst (func store) with
                    | Return result => Some (toResult result)
                    | Throw _ => None
                    end;
                  error :=
                    match fst (func store) with
                    | Return _ => None
                    | Throw e => Some e
                    end |} ]).
Proof.
  intros Hkeeps Htrace. unfold _runOperation. specialize (Hkeeps store).
  rewrite Htrace in *.
  destruct (func store) as [[result|e] store']; simpl in *;
    by rewrite Hkeeps.
Qed.

(** With tracing off nothing is recorded. *)
Lemma runOperation_untraced {R} (toResult : R -> OperationResult)
  name parameters opts (func : Facade R) store :
  _trace store = None ->
  _runOperation toResult name parameters opts func store = func store.
Proof.
  intros Htrace. unfold _runOperation. rewrite Htrace.
  by destruct (func store) as [[result|e] store'].
Qed.

(** Every operation of the facade, succeeding or failing, appends exactly
    one entry when tracing is on; the entry holds the params, the options
    and the result or the error, and the caller gets that same result or
    error.  The name recorded is the operation's, except for [count], whose
    entry is named [find]. *)
Lemma operations_are_traced store trace :
  _trace store = Some trace ->
  (forall parameters opts,
      exists entry,
        _trace (snd (load imports parameters opts store))
        = Some (trace ++ [entry])
        /\ operation entry = "load"
        /\ params entry = ParamsOfLoad parameters
        /\ options entry = Some (OptionsOfLoad opts)
        /\ match fst (load imports parameters opts store) with
           | Return result =>
               result_ entry = Some (ResultOfLoad result) /\ error entry = None
           | Throw e => result_ entry = None /\ error entry = Some e
           end)
  /\ (forall parameters opts,
         exists entry,
           _trace (snd (save imports parameters opts store))
           = Some (trace ++ [entry])
           /\ operation entry = "save"
           /\ params entry = ParamsOfSave parameters
           /\ options entry = Some (OptionsOfSave opts)
           /\ match fst (save imports parameters opts store) with
              | Return result =>
                  result_ entry = Some (ResultOfSave result)
                  /\ error entry = None
              | Throw e => result_ entry = None /\ error entry = Some e
              end)
  /\ (forall parameters opts,
         exists entry,
           _trace (snd (delete imports parameters opts store))
           = Some (trace ++ [entry])
           /\ operation entry = "delete"
           /\ params entry = ParamsOfDelete parameters
           /\ options entry = Some (OptionsOfDelete opts)
           /\ match fst (delete imports parameters opts store) with
              | Return result =>
                  result_ entry = Some (ResultOfDelete result)
                  /\ error entry = None
              | Throw e => result_ entry = None /\ error entry = Some e
              end)
  /\ (forall parameters opts,
         exists entry,
           _trace (snd (find imports parameters opts store))
           = Some (trace ++ [entry])
           /\ operation entry = "find"
           /\ params entry = ParamsOfFind parameters
           /\ options entry = Some (OptionsOfFind opts)
           /\ match fst (find imports parameters opts store) with
              | Return result =>
                  result_ entry = Some (ResultOfFind result)
                  /\ error entry = None
              | Throw e => result_ entry = None /\ error entry = Some e
              end)
  /\ (forall parameters,
         exists entry,
           _trace (snd (count imports parameters store))
           = Some (trace ++ [entry])
           /\ operation entry = "find"
           /\ params entry = ParamsOfCount parameters
           /\ options entry = None
           /\ match fst (count imports parameters store) with
              | Return result =>
                  result_ entry = Some (ResultOfCount result)
                  /\ error entry = None
              | Throw e => result_ entry = None /\ error entry = Some e
              end).
Proof.
  intros Htrace.
  repeat match goal with |- _ /\ _ => split end; intros;
    unfold load, save, delete, find, count;
    match goal with
    | |- context [_runOperation ?toResult ?name ?parameters ?opts ?func] =>
        destruct (runOperation_traced toResult name parameters opts func
                    store trace) as [Houtcome Hentry];
          [keeps_trace | exact Htrace |];
        eexists; split; [exact Hentry|];
        rewrite Houtcome; simpl;
        repeat (split; [reflexivity|]);
        destruct (fst (func store)); split; reflexivity
    end.
Qed.

End StoreProperties.

Section DomainErrors.

Context {Storable Projection DocumentPatch B : Type}.
Context `{!@AbstractStore Storable Projection DocumentPatch B}.
Variable imports : @Imports Storable Projection DocumentPatch.

Lemma runOperation_outcome {R} (toResult : R -> OperationResult)
  name parameters opts (func : Op (@Store Storable B) (StoreError Storable) R)
  store :
  fst (_runOperation toResult name parameters opts func store)
  = fst (func store)
  /\ backend (snd (_runOperation toResult name parameters opts func store))
     = backend (snd (func store)).
Proof.
  unfold _runOperation.
  destruct (func store) as [[result|e] store']; simpl;
    by destruct (_trace store).
Qed.

(** C6.  When the backend reports absence ([readDocument] gives
    [undefined], [deleteDocument] gives [false]), [load] and [delete] with
    [throwIfMissing] left to its default (or set to [true]) fail with the
    error whose code is [COMPONENT_IS_MISSING_FROM_STORE]; [load] with
    [throwIfMissing] set to [false] returns [undefined]. *)
Theorem absence_is_reported (store : @Store Storable B) :
  (forall parameters opts selector storable backend',
      normalizeAttributeSelector imports
        (default (VBoolean true) (load_attributeSelector opts))
      = Return selector ->
      getStorableOfType imports (load_storableType parameters) store
      = (Return storable, store) ->
      readDocument
        {| read_collectionName := _getCollectionNameFromStorable imports storable;
           read_identifierDescriptor :=
             toDocument (deserialize imports) storable
               (load_identifierDescriptor parameters);
           read_projection :=
             buildProjection imports
               (toDocument (deserialize imports) storable selector) |}
        (backend store)
      = (Return None, backend') ->
      (default true (load_throwIfMissing opts) = true ->
       fst (load imports parameters opts store)
       = Throw (CannotLoadMissing storable (load_identifierDescriptor parameters))
       /\ code (CannotLoadMissing storable (load_identifierDescriptor parameters))
          = Some "COMPONENT_IS_MISSING_FROM_STORE")
      /\ (load_throwIfMissing opts = Some false ->
          fst (load imports parameters opts store) = Return None))
  /\ (forall parameters opts storable backend',
         getStorableOfType imports (del_storableType parameters) store
         = (Return storable, store) ->
         deleteDocument
           {| delete_collectionName :=
                _getCollectionNameFromStorable imports storable;
              delete_identifierDescriptor :=
                toDocument (deserialize imports) storable
                  (del_identifierDescriptor parameters) |}
           (backend store)
         = (Return false, backend') ->
         default true (del_throwIfMissing opts) = true ->
         fst (delete imports parameters opts store)
         = Throw (CannotDeleteMissing storable
                    (del_identifierDescriptor parameters))
         /\ code (CannotDeleteMissing storable
                    (del_identifierDescriptor parameters))
            = Some "COMPONENT_IS_MISSING_FROM_STORE").
Proof.
  split.
  - intros parameters opts selector storable backend' Hselector Hstorable Hread.
    assert (Hfunc : forall throwIfMissing,
      default true (load_throwIfMissing opts) = throwIfMissing ->
      fst (load imports parameters opts store)
      = if negb throwIfMissing then Return None
        else Throw (CannotLoadMissing storable
                      (load_identifierDescriptor parameters))).
    { intros throwIfMissing Hthrow. unfold load.
      rewrite (proj1 (runOperation_outcome _ _ _ _ _ _)). cbv zeta.
      rewrite Hselector, Hthrow.
      erewrite bindOp_Return by reflexivity.
      erewrite bindOp_Return by exact Hstorable.
      erewrite bindOp_Return by (apply await_outcome; exact Hread).
      by destruct throwIfMissing. }
    split.
    + intros Hthrow. split; [|reflexivity]. by rewrite (Hfunc true).
    + intros Hthrow. rewrite (Hfunc false); [reflexivity|]. by rewrite Hthrow.
  - intros parameters opts storable backend' Hstorable Hdelete Hthrow.
    split; [|reflexivity]. unfold delete.
    rewrite (proj1 (runOperation_outcome _ _ _ _ _ _)). cbv zeta.
    rewrite Hthrow.
    erewrite bindOp_Return by exact Hstorable.
    erewrite bindOp_Return by (apply await_outcome; exact Hdelete).
    reflexivity.
Qed.

(** C7.  [save] with [isNew] set and the options left to their defaults,
    when [createDocument] reports the identifier present, fails with the
    error whose code is [COMPONENT_ALREADY_EXISTS_IN_STORE], and the backend
    is left as that one call of [createDocument] left it; and [save] with
    both [throwIfMissing] and [throwIfExists] set to [true] fails before any
    call of the backend. *)
Theorem save_conflicts_are_errors (store : @Store Storable B) :
  (forall parameters opts storable backend',
      save_isNew parameters = Some true ->
      default false (save_throwIfMissing opts) = false ->
      default true (save_throwIfExists opts) = true ->
      getStorableOfType imports (save_storableType parameters) store
      = (Return storable, store) ->
      createDocument
        {| create_collectionName :=
             _getCollectionNameFromStorable imports storable;
           create_identifierDescriptor :=
             toDocument (deserialize imports) storable
               (save_identifierDescriptor parameters);
           create_document :=
             deleteUndefinedProperties imports
               (toDocument (deserialize imports) storable
                  (save_serializedStorable parameters)) |}
        (backend store)
      = (Return false, backend') ->
      fst (save imports parameters opts store)
      = Throw (CannotSaveExisting storable (save_identifierDescriptor parameters))
      /\ code (CannotSaveExisting storable (save_identifierDescriptor parameters))
         = Some "COMPONENT_ALREADY_EXISTS_IN_STORE"
      /\ backend (snd (save imports parameters opts store)) = backend')
  /\ (forall parameters opts,
         save_throwIfMissing opts = Some true ->
         save_throwIfExists opts = Some true ->
         fst (save imports parameters opts store) = Throw OptionsBothTrue
         /\ backend (snd (save imports parameters opts store)) = backend store).
Proof.
  split.
  - intros parameters opts storable backend' HisNew Hmissing Hexists Hstorable
      Hcreate.
    assert (Hfunc : exists store',
      backend store' = backend'
      /\ save imports parameters opts store
         = _runOperation ResultOfSave "save" (ParamsOfSave parameters)
             (Some (OptionsOfSave opts))
             (fun _ =>
                (Throw (CannotSaveExisting storable
                          (save_identifierDescriptor parameters)),
                 store'))
             store).
    { eexists. split; [|unfold save, _runOperation; cbv zeta;
        rewrite HisNew; change (default false (Some true)) with true;
        change (negb true) with false; rewrite Hmissing, Hexists;
        cbv beta iota delta [andb];
        erewrite bindOp_Return by exact Hstorable;
        erewrite bindOp_Return by (apply await_outcome; exact Hcreate);
        reflexivity].
      reflexivity. }
    destruct Hfunc as (store' & Hbackend & ->).
    rewrite (proj1 (runOperation_outcome _ _ _ _ _ _)),
      (proj2 (runOperation_outcome _ _ _ _ _ _)).
    by repeat split.
  - intros parameters opts Hmissing Hexists.
    unfold save.
    rewrite (proj1 (runOperation_outcome _ _ _ _ _ _)),
      (proj2 (runOperation_outcome _ _ _ _ _ _)).
    cbv zeta. rewrite Hmissing, Hexists. split; reflexivity.
Qed.

End DomainErrors.

(** ** The facade on the refusing backend *)

Lemma absence_example :
  fst (load Sample.imports
         {| load_storableType := "Movie";
            load_identifierDescriptor := Sample.movie |}
         {| load_attributeSelector := None; load_throwIfMissing := None |}
         (Sample.store None))
  = Throw (CannotLoadMissing "Movie" Sample.movie)
  /\ fst (load Sample.imports
            {| load_storableType := "Movie";
               load_identifierDescriptor := Sample.movie |}
            {| load_attributeSelector := None;
               load_throwIfMissing := Some false |}
            (Sample.store None))
     = Return None
  /\ fst (delete Sample.imports
            {| del_storableType := "Movie";
               del_identifierDescriptor := Sample.movie |}
            {| del_throwIfMissing := None |}
            (Sample.store None))
     = Throw (CannotDeleteMissing "Movie" Sample.movie).
Proof.
  destruct (absence_is_reported Sample.imports (Sample.store None))
    as [Hload Hdelete].
  split; [|split].
  - refine (proj1 (proj1 (Hload _ _ (VBoolean true) "Movie" ["readDocument"]
                            _ _ _) _));
      vm_compute; reflexivity.
  - refine (proj2 (Hload _ _ (VBoolean true) "Movie" ["readDocument"]
                     _ _ _) _);
      vm_compute; reflexivity.
  - refine (proj1 (Hdelete _ _ "Movie" ["deleteDocument"] _ _ _));
      vm_compute; reflexivity.
Defined.

Lemma save_conflict_example :
  (fst (save Sample.imports
          {| save_storableType := "Movie";
             save_identifierDescriptor := Sample.movie;
             save_serializedStorable := Sample.movie;
             save_isNew := Some true |}
          {| save_throwIfMissing := None; save_throwIfExists := None |}
          (Sample.store None))
   = Throw (CannotSaveExisting "Movie" Sample.movie)
   /\ backend
        (snd (save Sample.imports
                {| save_storableType := "Movie";
                   save_identifierDescriptor := Sample.movie;
                   save_serializedStorable := Sample.movie;
                   save_isNew := Some true |}
                {| save_throwIfMissing := None; save_throwIfExists := None |}
                (Sample.store None)))
      = ["createDocument"])
  /\ (fst (save Sample.imports
             {| save_storableType := "Movie";
                save_identifierDescriptor := Sample.movie;
                save_serializedStorable := Sample.movie;
                save_isNew := None |}
             {| save_throwIfMissing := Some true;
                save_throwIfExists := Some true |}
             (Sample.store None))
      = Throw OptionsBothTrue
      /\ backend
           (snd (save Sample.imports
                   {| save_storableType := "Movie";
                      save_identifierDescriptor := Sample.movie;
                      save_serializedStorable := Sample.movie;
                      save_isNew := None |}
                   {| save_throwIfMissing := Some true;
                      save_throwIfExists := Some true |}
                   (Sample.store None)))
         = []).
Proof.
  destruct (save_conflicts_are_errors Sample.imports (Sample.store None))
    as [Hexists Hboth].
  split.
  - assert (Hsave := Hexists
      {| save_storableType := "Movie";
         save_identifierDescriptor := Sample.movie;
         save_serializedStorable := Sample.movie;
         save_isNew := Some true |}
      {| save_throwIfMissing := None; save_throwIfExists := None |}
      "Movie" ["createDocument"] eq_refl eq_refl eq_refl).
    destruct Hsave as (Herror & _ & Hbackend);
      [vm_compute; reflexivity | vm_compute; reflexivity |].
    split; [exact Herror | exact Hbackend].
  - exact (Hboth
             {| save_storableType := "Movie";
                save_identifierDescriptor := Sample.movie;
                save_serializedStorable := Sample.movie;
                save_isNew := None |}
             {| save_throwIfMissing := Some true;
                save_throwIfExists := Some true |}
             eq_refl eq_refl).
Defined.

Lemma operations_traced_example :
  option_map (map operation)
    (_trace
       (snd (delete Sample.imports
               {| del_storableType := "Movie";
                  del_identifierDescriptor := Sample.movie |}
               {| del_throwIfMissing := Some false |}
               (Sample.store (Some [])))))
  = Some ["delete"].
Proof.
  destruct (operations_are_traced Sample.imports (Sample.store (Some [])) []
              eq_refl)
    as (_ & _ & Hdelete & _).
  destruct (Hdelete
              {| del_storableType := "Movie";
                 del_identifierDescriptor := Sample.movie |}
              {| del_throwIfMissing := Some false |})
    as (entry & Htrace & Hname & _).
  rewrite Htrace. simpl. rewrite Hname. reflexivity.
Defined.

(** C8, at the call the code gets wrong: with tracing on, [count] appends
    one entry, and the entry is named [find], not [count]. *)
Theorem count_is_traced_as_find :
  option_map (map operation)
    (_trace
       (snd (count Sample.imports
               {| cnt_storableType := "Movie"; cnt_query := None |}
               (Sample.store (Some [])))))
  = Some ["find"]
  /\ fst (count Sample.imports
            {| cnt_storableType := "Movie"; cnt_query := None |}
            (Sample.store (Some [])))
     = Return 0%Z.
Proof. split; vm_compute; reflexivity. Qed.

(** ** What the compiler emits *)



Lemma forallb_concat {A} (f : A -> bool) (parts : list (list A)) :
  forallb f (concat parts) = forallb (forallb f) parts.
Proof.
  induction parts as [|part parts IH]; simpl; [reflexivity|].
  by rewrite forallb_app, IH.
Qed.

Section Emitted.

Variable normalize : Operator -> value -> Query -> result QueryError Operator.

Lemma handleOperator_shaped v :
  emitsShaped normalize v ->
  (forall values, v = VArray values -> Forall (emitsShaped normalize) values) ->
  forall operator path query added,
    handleOperator normalize operator v [] path query = Return added ->
    forallb shaped added = true.
Proof.
  intros Hvalue Helements operator path query added Hadded.
  apply handleOperator_Return in Hadded
    as (normalized & operand & _ & -> & Hoperand).
  simpl. rewrite andb_true_r.
  destruct operand as [v'|subexpressions|operatorExpressions].
  - destruct Hoperand as (-> & -> & -> & ->). reflexivity.
  - destruct Hoperand as [-> Hsub]. simpl. by apply (Hvalue "" query).
  - destruct Hoperand as [-> (values & -> & Hall)]. simpl.
    specialize (Helements values eq_refl). clear Hvalue.
    induction Hall as [|element outcome values outcomes Helement _ IH];
      [reflexivity|].
    inversion Helements as [|? ? Hhead Htail]; subst. simpl.
    rewrite (Hhead "" query outcome Helement). by apply IH.
Qed.

Lemma buildEntry_shaped query path entry part :
  emitsShaped normalize (snd entry) ->
  (forall values,
      snd entry = VArray values -> Forall (emitsShaped normalize) values) ->
  buildEntry normalize query path entry [] = Return part ->
  forallb shaped part = true.
Proof.
  destruct entry as [name v]. simpl. intros Hvalue Helements.
  unfold buildEntry, buildEntry_.
  destruct (looksLikeOperator name).
  - destruct (isLogicalOperator name); [|discriminate].
    by apply handleOperator_shaped.
  - apply Hvalue.
Qed.

Lemma parts_shaped {A}
  (body : A -> list Expression -> result QueryError (list Expression))
  entries parts :
  Forall2 (fun entry part => body entry [] = Return part) entries parts ->
  Forall
    (fun entry =>
       forall part, body entry [] = Return part -> forallb shaped part = true)
    entries ->
  forallb (forallb shaped) parts = true.
Proof.
  induction 1 as [|entry part entries parts Hentry _ IH]; intros Hall;
    [reflexivity|].
  inversion Hall as [|? ? Hhead Hrest]; subst. simpl.
  rewrite (Hhead part Hentry). by apply IH.
Qed.

Lemma handleValue_shaped v :
  emitsShaped normalize v
  /\ (forall values, v = VArray values -> Forall (emitsShaped normalize) values).
Proof.
  induction v as [| | | | | elements IH | object IH | ] using value_nested_ind.
  1-5, 8: split; [by intros subpath query added [= <-] | discriminate].
  - split; [by intros subpath query added [= <-]|].
    intros values [= <-]. eapply Forall_impl; [exact IH|]. by intros v [Hv _].
  - split; [|discriminate].
    intros subpath query added. rewrite handleValue_object.
    destruct (scanKeys (keys object)) as [[|] [|]].
    + discriminate.
    + rewrite build_unfold. intros Hbuild.
      apply forEach_concat in Hbuild as (parts & Hparts & ->);
        [|apply Forall_forall; intros entry _; apply buildEntry_appends].
      rewrite forallb_concat. apply (parts_shaped _ _ _ Hparts).
      eapply Forall_impl; [exact IH|].
      intros entry [Hvalue Helements] part.
      by apply buildEntry_shaped.
    + intros Hloop.
      apply (forEach_concat
               (fun entry expressions =>
                  handleOperator normalize (fst entry) (snd entry) expressions
                    subpath query)) in Hloop as (parts & Hparts & ->);
        [|apply Forall_forall; intros entry _ state;
          apply handleOperator_appends].
      rewrite forallb_concat.
      apply (parts_shaped
               (fun entry expressions =>
                  handleOperator normalize (fst entry) (snd entry) expressions
                    subpath query) _ _ Hparts).
      eapply Forall_impl; [exact IH|].
      intros entry [Hvalue Helements] part.
      by apply handleOperator_shaped.
    + by intros [= <-].
Qed.

End Emitted.

(** Every expression of a compiled query has the operand its operator
    calls for, at every depth: a value that is not a plain object for a
    comparison, a list of expressions for [$some], [$every] and [$not], a
    list of lists of expressions for [$and], [$or] and [$nor]. *)
Theorem compiled_expressions_are_shaped {Storable : Type}
  (deserialize : value -> value)
  (normalize : Operator -> value -> Query -> result QueryError Operator)
  (storable : Storable) (query : value) (expressions : list Expression) :
  toDocumentExpressions deserialize normalize storable query
  = Return expressions ->
  forallb shaped expressions = true.
Proof.
  unfold toDocumentExpressions, toDocument.
  destruct (objectEntries (deserialize query)) as [entries|e]; [|discriminate].
  rewrite bind_Return, build_unfold. intros Hbuild.
  apply forEach_concat in Hbuild as (parts & Hparts & ->);
    [|apply Forall_forall; intros entry _; apply buildEntry_appends].
  rewrite forallb_concat. apply (parts_shaped _ _ _ Hparts).
  apply Forall_forall. intros entry _ part.
  destruct (handleValue_shaped normalize (snd entry)) as [Hvalue Helements].
  by apply buildEntry_shaped.
Qed.

Lemma compiled_expressions_example :
  toDocumentExpressions Sample.unchanged Sample.normalize tt Sample.nestedQuery
  = Return
      [Expr "tags" "$some"
         (Nested [Expr "name" "$equal" (Plain (VString "x"))]);
       Expr "" "$or"
         (NestedList
            [[Expr "a" "$equal" (Plain (VNumber 1))];
             [Expr "b" "$in" (Plain (VArray [VNumber 1; VNumber 2]))]])]
  /\ forallb shaped
       [Expr "tags" "$some"
          (Nested [Expr "name" "$equal" (Plain (VString "x"))]);
        Expr "" "$or"
          (NestedList
             [[Expr "a" "$equal" (Plain (VNumber 1))];
              [Expr "b" "$in" (Plain (VArray [VNumber 1; VNumber 2]))]])]
     = true.
Proof.
  split; [reflexivity|].
  exact (compiled_expressions_are_shaped Sample.unchanged Sample.normalize tt
           Sample.nestedQuery _ eq_refl).
Defined.

(** An object made of operators compiles to one expression per operator,
    in the order of the operators, each at the path of the object and with
    the operator the registry normalised the key to. *)
Theorem operator_object_expressions
  (normalize : Operator -> value -> Query -> result QueryError Operator)
  (object : PlainObject) (subpath : Path) (query : Query)
  (added : list Expression) :
  scanKeys (keys object) = (false, true) ->
  handleValue normalize (VObject object) [] subpath query = Return added ->
  Forall2
    (fun entry expression =>
       expressionPath expression = subpath
       /\ normalize (fst entry) (snd entry) query
          = Return (expressionOperator expression))
    object added.
Proof.
  intros Hkeys. rewrite handleValue_object, Hkeys. intros Hloop.
  apply (forEach_concat
           (fun entry expressions =>
              handleOperator normalize (fst entry) (snd entry) expressions
                subpath query)) in Hloop as (parts & Hparts & ->);
    [|apply Forall_forall; intros entry _ state; apply handleOperator_appends].
  clear Hkeys.
  induction Hparts as [|entry part entries parts Hentry _ IH];
    [constructor|].
  apply handleOperator_Return in Hentry
    as (normalized & operand & Hnormalized & -> & _).
  simpl. constructor; [by split | exact IH].
Qed.

Lemma operator_object_example :
  Forall2
    (fun entry expression =>
       expressionPath expression = "n"
       /\ Sample.normalize (fst entry) (snd entry) []
          = Return (expressionOperator expression))
    [("$greaterThan", VNumber 1); ("$lessThan", VNumber 5)]
    [Expr "n" "$greaterThan" (Plain (VNumber 1));
     Expr "n" "$lessThan" (Plain (VNumber 5))].
Proof.
  exact (operator_object_expressions Sample.normalize
           [("$greaterThan", VNumber 1); ("$lessThan", VNumber 5)] "n" []
           _ eq_refl eq_refl).
Defined.

(** ** What the compiler throws *)

Section Thrown.

Variable normalize : Operator -> value -> Query -> result QueryError Operator.


Lemma expectedError_compiler e :
  isCompilerError e = true -> expectedError normalize e.
Proof. by left. Qed.




End Thrown.



(** ** Tracing and the operations *)

Section TracingProperties.

Context {Storable Projection DocumentPatch B : Type}.
Context `{!@AbstractStore Storable Projection DocumentPatch B}.
Variable imports : @Imports Storable Projection DocumentPatch.

Abbreviation Facade' := (Op (@Store Storable B) (StoreError Storable)).

Lemma setTrace_setTrace trace trace' (store : @Store Storable B) :
  setTrace trace (setTrace trace' store) = setTrace trace store.
Proof. reflexivity. Qed.

Lemma ignoresTrace_ret {A} (a : A) : ignoresTrace (ret a : Facade' A).
Proof. intros trace store. reflexivity. Qed.

Lemma ignoresTrace_throw {A} (e : StoreError Storable) :
  ignoresTrace (throw e : Facade' A).
Proof. intros trace store. reflexivity. Qed.

Lemma ignoresTrace_lift {A} (r : result (StoreError Storable) A) :
  ignoresTrace (lift r : Facade' A).
Proof. intros trace store. reflexivity. Qed.

Lemma ignoresTrace_await {A} (call : Op B (StoreError Storable) A) :
  ignoresTrace (await call).
Proof.
  intros trace store. unfold await. simpl.
  by destruct (call (backend store)).
Qed.

Lemma ignoresTrace_getStorableOfType type :
  ignoresTrace (getStorableOfType (B:=B) imports type).
Proof.
  intros trace store.
  unfold getStorableOfType, _getStorableOfType, _getStorable, bindOp, lift,
    ret, throw.
  destruct (assertIsComponentType imports type) as [kind|e]; [|reflexivity].
  destruct kind; simpl; by destruct (_storables store !! _).
Qed.

Lemma ignoresTrace_bindOp {A R} (m : Facade' A) (k : A -> Facade' R) :
  ignoresTrace m -> (forall a, ignoresTrace (k a)) -> ignoresTrace (bindOp m k).
Proof.
  intros Hm Hk trace store. unfold bindOp. rewrite (Hm trace store).
  destruct (m store) as [[a|e] store']; simpl; [|reflexivity].
  apply Hk.
Qed.

Lemma runOperation_ignoresTrace {R} (toResult : R -> OperationResult)
  name parameters opts (func : Facade' R) trace store :
  ignoresTrace func ->
  fst (_runOperation toResult name parameters opts func (setTrace trace store))
  = fst (_runOperation toResult name parameters opts func store)
  /\ backend
       (snd (_runOperation toResult name parameters opts func
               (setTrace trace store)))
     = backend (snd (_runOperation toResult name parameters opts func store))
  /\ _storables
       (snd (_runOperation toResult name parameters opts func
               (setTrace trace store)))
     = _storables
         (snd (_runOperation toResult name parameters opts func store)).
Proof.
  intros Hfunc. unfold _runOperation. rewrite (Hfunc trace store).
  destruct (func store) as [[result|e] store']; simpl;
    destruct trace, (_trace store); by repeat split.
Qed.

End TracingProperties.

Ltac ignores_trace :=
  cbv zeta;
  repeat first
    [ apply ignoresTrace_ret
    | apply ignoresTrace_throw
    | apply ignoresTrace_lift
    | apply ignoresTrace_await
    | apply ignoresTrace_getStorableOfType
    | apply ignoresTrace_bindOp; [|intros ?]
    | match goal with
      | |- ignoresTrace (match ?x with _ => _ end) => destruct x
      end ].

Section Transparency.

Context {Storable Projection DocumentPatch B : Type}.
Context `{!@AbstractStore Storable Projection DocumentPatch B}.
Variable imports : @Imports Storable Projection DocumentPatch.

(** Tracing is never used for control flow: whatever the trace of the
    store (off, empty or filled), each operation gives the same result or
    error, leaves the backend in the same state and the same storables
    registered. *)
Theorem tracing_is_transparent trace (store : @Store Storable B) :
  (forall parameters opts,
      fst (load imports parameters opts (setTrace trace store))
      = fst (load imports parameters opts store)
      /\ backend (snd (load imports parameters opts (setTrace trace store)))
         = backend (snd (load imports parameters opts store))
      /\ _storables (snd (load imports parameters opts (setTrace trace store)))
         = _storables (snd (load imports parameters opts store)))
  /\ (forall parameters opts,
         fst (save imports parameters opts (setTrace trace store))
         = fst (save imports parameters opts store)
         /\ backend (snd (save imports parameters opts (setTrace trace store)))
            = backend (snd (save imports parameters opts store))
         /\ _storables
              (snd (save imports parameters opts (setTrace trace store)))
            = _storables (snd (save imports parameters opts store)))
  /\ (forall parameters opts,
         fst (delete imports parameters opts (setTrace trace store))
         = fst (delete imports parameters opts store)
         /\ backend
              (snd (delete imports parameters opts (setTrace trace store)))
            = backend (snd (delete imports parameters opts store))
         /\ _storables
              (snd (delete imports parameters opts (setTrace trace store)))
            = _storables (snd (delete imports parameters opts store)))
  /\ (forall parameters opts,
         fst (find imports parameters opts (setTrace trace store))
         = fst (find imports parameters opts store)
         /\ backend (snd (find imports parameters opts (setTrace trace store)))
            = backend (snd (find imports parameters opts store))
         /\ _storables
              (snd (find imports parameters opts (setTrace trace store)))
            = _storables (snd (find imports parameters opts store)))
  /\ (forall parameters,
         fst (count imports parameters (setTrace trace store))
         = fst (count imports parameters store)
         /\ backend (snd (count imports parameters (setTrace trace store)))
            = backend (snd (count imports parameters store))
         /\ _storables (snd (count imports parameters (setTrace trace store)))
            = _storables (snd (count imports parameters store))).
Proof.
  repeat match goal with |- _ /\ _ => split end; intros;
    unfold load, save, delete, find, count;
    apply runOperation_ignoresTrace; ignores_trace.
Qed.

End Transparency.

Ltac operation_keeps_trace :=
  cbv zeta;
  repeat first
    [ apply keepsTrace_ret
    | apply keepsTrace_throw
    | apply keepsTrace_lift
    | apply keepsTrace_await
    | apply keepsTrace_getStorableOfType
    | apply keepsTrace_bindOp; [|intros ?]
    | match goal with
      | |- keepsTrace (match ?x with _ => _ end) => destruct x
      end ].

Section CallSequences.

Context {Storable Projection DocumentPatch B : Type}.
Context `{!@AbstractStore Storable Projection DocumentPatch B}.
Variable imports : @Imports Storable Projection DocumentPatch.

Lemma perform_traced call (store : @Store Storable B) trace :
  _trace store = Some trace ->
  exists entry,
    _trace (perform imports call store) = Some (trace ++ [entry])
    /\ operation entry = tracedName call.
Proof.
  intros Htrace.
  destruct call; unfold perform, load, save, delete, find, count;
    match goal with
    | |- context [_runOperation ?toResult ?name ?parameters ?opts ?func] =>
        destruct (runOperation_traced toResult name parameters opts func
                    store trace) as [_ Hentry];
          [operation_keeps_trace | exact Htrace |];
        eexists; split; [exact Hentry | reflexivity]
    end.
Qed.

Lemma perform_untraced call (store : @Store Storable B) :
  _trace store = None -> _trace (perform imports call store) = None.
Proof.
  intros Htrace.
  destruct call; unfold perform, load, save, delete, find, count;
    rewrite runOperation_untraced by exact Htrace;
    match goal with
    | |- _trace (snd (?func store)) = None =>
        assert (Hkeeps : keepsTrace func) by operation_keeps_trace;
        by rewrite (Hkeeps store)
    end.
Qed.

Lemma performAll_trace (calls : list Call) (store : @Store Storable B) :
  (forall trace,
      _trace store = Some trace ->
      exists entries,
        _trace (performAll imports calls store) = Some (trace ++ entries)
        /\ map operation entries = map tracedName calls)
  /\ (_trace store = None -> _trace (performAll imports calls store) = None).
Proof.
  revert store. induction calls as [|call calls IH]; intros store.
  - split.
    + intros trace Htrace. exists []. by rewrite app_nil_r.
    + done.
  - unfold performAll. simpl fold_left.
    fold (performAll imports calls (perform imports call store)).
    destruct (IH (perform imports call store)) as [IHtraced IHuntraced].
    split.
    + intros trace Htrace.
      destruct (perform_traced call store trace Htrace)
        as (entry & Hentry & Hname).
      destruct (IHtraced _ Hentry) as (entries & Hentries & Hnames).
      exists (entry :: entries). rewrite Hentries, <- app_assoc. simpl.
      by rewrite Hname, Hnames.
    + intros Htrace. apply IHuntraced. by apply perform_untraced.
Qed.

(** The trace follows the calls: after any sequence of calls on a tracing
    store the trace has grown by one entry per call, in the order of the
    calls, each named after its method but for [count], named [find]; on a
    store that is not tracing no call turns tracing on. *)
Theorem trace_follows_calls (calls : list Call) (store : @Store Storable B) :
  (forall trace,
      _trace store = Some trace ->
      exists entries,
        _trace (performAll imports calls store) = Some (trace ++ entries)
        /\ map operation entries = map tracedName calls)
  /\ (_trace store = None -> _trace (performAll imports calls store) = None).
Proof. apply performAll_trace. Qed.

(** A tracing session: [startTrace] forgets what was recorded, so that
    [getTrace] after some calls gives exactly the entries of these calls,
    in order; after [stopTrace], [getTrace] throws, whatever calls follow;
    and [getTrace] fails exactly when the store is not tracing. *)
Theorem tracing_sessions (calls : list Call) (store : @Store Storable B) :
  (exists entries,
      getTrace (performAll imports calls (startTrace store))
      = (Return entries, performAll imports calls (startTrace store))
      /\ map operation entries = map tracedName calls)
  /\ getTrace (performAll imports calls (stopTrace store))
     = (Throw NotTracing, performAll imports calls (stopTrace store))
  /\ (isReturn (fst (getTrace store)) = false <-> _trace store = None).
Proof.
  split; [|split].
  - destruct (proj1 (performAll_trace calls (startTrace store)) [] eq_refl)
      as (entries & Hentries & Hnames).
    exists entries. split; [|done]. unfold getTrace. by rewrite Hentries.
  - unfold getTrace.
    by rewrite (proj2 (performAll_trace calls (stopTrace store)) eq_refl).
  - unfold getTrace. destruct (_trace store); simpl; split; congruence.
Qed.

End CallSequences.

Lemma trace_follows_calls_example :
  option_map (map operation)
    (_trace
       (performAll Sample.imports
          [CallCount {| cnt_storableType := "Movie"; cnt_query := None |};
           CallDelete
             {| del_storableType := "Movie";
                del_identifierDescriptor := Sample.movie |}
             {| del_throwIfMissing := None |};
           CallLoad
             {| load_storableType := "Actor";
                load_identifierDescriptor := Sample.movie |}
             {| load_attributeSelector := None; load_throwIfMissing := None |}]
          (startTrace (Sample.store None))))
  = Some ["find"; "delete"; "load"].
Proof.
  destruct (proj1
              (trace_follows_calls Sample.imports
                 [CallCount {| cnt_storableType := "Movie"; cnt_query := None |};
                  CallDelete
                    {| del_storableType := "Movie";
                       del_identifierDescriptor := Sample.movie |}
                    {| del_throwIfMissing := None |};
                  CallLoad
                    {| load_storableType := "Actor";
                       load_identifierDescriptor := Sample.movie |}
                    {| load_attributeSelector := None;
                       load_throwIfMissing := None |}]
                 (startTrace (Sample.store None)))
              [] eq_refl)
    as (entries & Hentries & Hnames).
  rewrite Hentries. simpl. by rewrite Hnames.
Defined.

(** ** Outcomes of the operations *)

Section Outcomes.

Context {Storable Projection DocumentPatch B : Type}.
Context `{!@AbstractStore Storable Projection DocumentPatch B}.
Variable imports : @Imports Storable Projection DocumentPatch.

Ltac through_runOperation :=
  rewrite ?(proj1 (runOperation_outcome _ _ _ _ _ _)),
    ?(proj2 (runOperation_outcome _ _ _ _ _ _)).

(** [save] of a component that is not new goes through [updateDocument]
    alone.  When the update took place [save] returns [true]; when the
    backend reports absence [save] fails with the error of code
    [COMPONENT_IS_MISSING_FROM_STORE] by default, returns [false] with
    [throwIfMissing] set to [false], and, with [throwIfMissing] set to
    [false] and [throwIfExists] set to [true], fails with the error of code
    [COMPONENT_ALREADY_EXISTS_IN_STORE]. *)
Theorem save_of_existing (store : @Store Storable B)
  parameters opts storable wasSaved backend' :
  default false (save_isNew parameters) = false ->
  default true (save_throwIfMissing opts)
  && default false (save_throwIfExists opts) = false ->
  getStorableOfType imports (save_storableType parameters) store
  = (Return storable, store) ->
  updateDocument
    {| update_collectionName := _getCollectionNameFromStorable imports storable;
       update_identifierDescriptor :=
         toDocument (deserialize imports) storable
           (save_identifierDescriptor parameters);
       update_documentPatch :=
         buildDocumentPatch imports
           (toDocument (deserialize imports) storable
              (save_serializedStorable parameters)) |}
    (backend store)
  = (Return wasSaved, backend') ->
  fst (save imports parameters opts store)
  = (if wasSaved then Return true
     else if default true (save_throwIfMissing opts) then
       Throw (CannotSaveMissing storable (save_identifierDescriptor parameters))
     else if default false (save_throwIfExists opts) then
       Throw (CannotSaveExisting storable (save_identifierDescriptor parameters))
     else Return false)
  /\ backend (snd (save imports parameters opts store)) = backend'.
Proof.
  intros HisNew Hflags Hstorable Hupdate.
  unfold save. through_runOperation. cbv zeta.
  rewrite HisNew. change (negb false) with true. rewrite Hflags.
  erewrite bindOp_Return by exact Hstorable.
  erewrite bindOp_Return by (apply await_outcome; exact Hupdate).
  destruct wasSaved; simpl; [done|].
  destruct (default true (save_throwIfMissing opts)); simpl; [done|].
  by destruct (default false (save_throwIfExists opts)).
Qed.

(** The defaults of the two options of [save] follow [isNew], so that
    setting one option to [true] without setting the other to [false] can
    be a conflict: whenever the two effective options are [true], [save]
    fails before any call of the backend. *)
Theorem save_option_conflicts (store : @Store Storable B) parameters opts :
  default (negb (default false (save_isNew parameters)))
    (save_throwIfMissing opts)
  && default (default false (save_isNew parameters)) (save_throwIfExists opts)
  = true ->
  fst (save imports parameters opts store) = Throw OptionsBothTrue
  /\ backend (snd (save imports parameters opts store)) = backend store.
Proof.
  intros Hflags. unfold save. through_runOperation. cbv zeta.
  by rewrite Hflags.
Qed.

(** [delete] hands on the answer of the backend when it does not throw:
    [true] when the document was deleted, [false] when it was absent and
    [throwIfMissing] is [false]; the backend is called once. *)
Theorem delete_reports_backend (store : @Store Storable B)
  parameters opts storable wasDeleted backend' :
  getStorableOfType imports (del_storableType parameters) store
  = (Return storable, store) ->
  deleteDocument
    {| delete_collectionName := _getCollectionNameFromStorable imports storable;
       delete_identifierDescriptor :=
         toDocument (deserialize imports) storable
           (del_identifierDescriptor parameters) |}
    (backend store)
  = (Return wasDeleted, backend') ->
  wasDeleted = true \/ del_throwIfMissing opts = Some false ->
  fst (delete imports parameters opts store) = Return wasDeleted
  /\ backend (snd (delete imports parameters opts store)) = backend'.
Proof.
  intros Hstorable Hdelete Hcase.
  unfold delete. through_runOperation. cbv zeta.
  erewrite bindOp_Return by exact Hstorable.
  erewrite bindOp_Return by (apply await_outcome; exact Hdelete).
  destruct Hcase as [-> | ->]; [done|]. by destruct wasDeleted.
Qed.


(** A storable type that is valid and names no registered storable is not
    resolved: the error names the type. *)
Lemma getStorableOfType_unregistered (store : @Store Storable B) type kind :
  assertIsComponentType imports type = Return kind ->
  _storables store
  !! (match kind with
      | componentClassType =>
          getComponentNameFromComponentClassType imports type
      | componentInstanceType =>
          getComponentNameFromComponentInstanceType imports type
      end)
  = None ->
  getStorableOfType imports type store
  = (Throw (StorableOfTypeNotRegistered type), store).
Proof.
  intros Hkind Hlookup.
  unfold getStorableOfType, _getStorableOfType, _getStorable, bindOp, lift.
  rewrite Hkind. destruct kind; by rewrite Hlookup.
Qed.

(** [find] and [count] compile the query before they call the backend: a
    query that does not compile makes them fail with the compiler's error
    and the backend is not called. *)
Theorem invalid_query_stops_find_and_count (store : @Store Storable B) :
  (forall parameters opts selector storable e,
      normalizeAttributeSelector imports
        (default (VBoolean true) (fnd_attributeSelector opts))
      = Return selector ->
      getStorableOfType imports (fnd_storableType parameters) store
      = (Return storable, store) ->
      toDocumentExpressions (deserialize imports)
        (normalizeOperatorForValue imports) storable
        (default (VObject []) (fnd_query parameters))
      = Throw e ->
      fst (find imports parameters opts store) = Throw (InvalidQuery e)
      /\ backend (snd (find imports parameters opts store)) = backend store)
  /\ (forall parameters storable e,
         getStorableOfType imports (cnt_storableType parameters) store
         = (Return storable, store) ->
         toDocumentExpressions (deserialize imports)
           (normalizeOperatorForValue imports) storable
           (default (VObject []) (cnt_query parameters))
         = Throw e ->
         fst (count imports parameters store) = Throw (InvalidQuery e)
         /\ backend (snd (count imports parameters store)) = backend store).
Proof.
  split.
  - intros parameters opts selector storable e Hselector Hstorable Hquery.
    unfold find. through_runOperation. cbv zeta. rewrite Hselector.
    erewrite bindOp_Return by reflexivity.
    erewrite bindOp_Return by exact Hstorable.
    rewrite Hquery. by split.
  - intros parameters storable e Hstorable Hquery.
    unfold count. through_runOperation. cbv zeta.
    erewrite bindOp_Return by exact Hstorable.
    rewrite Hquery. by split.
Qed.

Lemma mapM_first_Throw {E A R} (f : A -> result E R) front item back e :
  Forall (fun item => isReturn (f item) = true) front ->
  f item = Throw e ->
  mapM f (front ++ item :: back) = Throw e.
Proof.
  induction 1 as [|head front Hhead _ IH]; intros Hitem.
  - change ([] ++ item :: back) with (item :: back).
    rewrite mapM_cons, Hitem. reflexivity.
  - rewrite <- app_comm_cons, mapM_cons.
    destruct (f head) as [b|e']; [|discriminate].
    rewrite bind_Return, (IH Hitem). reflexivity.
Qed.

(** What [load] and [find] return is what the backend gave, each document
    cut down by [pickFromAttributeSelector] to the attribute selector (with
    [__component] kept) and then serialized, as long as
    [pickFromAttributeSelector] returns: [load] returns the document it
    read whatever [throwIfMissing], [find] one result per document in the
    order of the backend, which receives the compiled expressions, the
    projection, the sort, [skip] and [limit].  When
    [pickFromAttributeSelector] throws, on the document read or on the
    first document it refuses, the operation fails with that error, the
    backend having been called.  The deserializations of [toDocument] are
    taken to return. *)
Theorem reads_return_shaped_documents (store : @Store Storable B) :
  (forall parameters opts selector storable document backend',
      normalizeAttributeSelector imports
        (default (VBoolean true) (load_attributeSelector opts))
      = Return selector ->
      getStorableOfType imports (load_storableType parameters) store
      = (Return storable, store) ->
      readDocument
        {| read_collectionName := _getCollectionNameFromStorable imports storable;
           read_identifierDescriptor :=
             toDocument (deserialize imports) storable
               (load_identifierDescriptor parameters);
           read_projection :=
             buildProjection imports
               (toDocument (deserialize imports) storable selector) |}
        (backend store)
      = (Return (Some document), backend') ->
      fst (load imports parameters opts store)
      = match
          pickFromAttributeSelector imports document
            (deserialize imports selector) ["__component"]
        with
        | Return picked => Return (Some (serialize imports picked))
        | Throw e => Throw e
        end
      /\ backend (snd (load imports parameters opts store)) = backend')
  /\ (forall parameters opts selector storable expressions documents backend',
         normalizeAttributeSelector imports
           (default (VBoolean true) (fnd_attributeSelector opts))
         = Return selector ->
         getStorableOfType imports (fnd_storableType parameters) store
         = (Return storable, store) ->
         toDocumentExpressions (deserialize imports)
           (normalizeOperatorForValue imports) storable
           (default (VObject []) (fnd_query parameters))
         = Return expressions ->
         findDocuments
           {| find_collectionName :=
                _getCollectionNameFromStorable imports storable;
              find_expressions := expressions;
              find_projection :=
                buildProjection imports (deserialize imports selector);
              find_sort :=
                Some (deserialize imports
                        (default (VObject []) (fnd_sort parameters)));
              find_skip := fnd_skip parameters;
              find_limit := fnd_limit parameters |}
           (backend store)
         = (Return documents, backend') ->
         (forall picked,
             Forall2
               (fun document pick =>
                  pickFromAttributeSelector imports document
                    (deserialize imports selector) ["__component"]
                  = Return pick)
               documents picked ->
             fst (find imports parameters opts store)
             = Return (map (serialize imports) picked))
         /\ (forall front document back e,
                documents = front ++ document :: back ->
                Forall
                  (fun document =>
                     isReturn
                       (pickFromAttributeSelector imports document
                          (deserialize imports selector) ["__component"])
                     = true)
                  front ->
                pickFromAttributeSelector imports document
                  (deserialize imports selector) ["__component"]
                = Throw e ->
                fst (find imports parameters opts store) = Throw e)
         /\ backend (snd (find imports parameters opts store)) = backend').
Proof.
  split.
  - intros parameters opts selector storable document backend'
      Hselector Hstorable Hread.
    unfold load. through_runOperation. cbv zeta. rewrite Hselector.
    erewrite bindOp_Return by reflexivity.
    erewrite bindOp_Return by exact Hstorable.
    erewrite bindOp_Return by (apply await_outcome; exact Hread).
    unfold toDocument, bindOp, lift.
    by destruct (pickFromAttributeSelector imports document _ _).
  - intros parameters opts selector storable expressions documents backend'
      Hselector Hstorable Hquery Hfind.
    unfold find. through_runOperation. cbv zeta. rewrite Hselector.
    erewrite bindOp_Return by reflexivity.
    erewrite bindOp_Return by exact Hstorable.
    rewrite Hquery.
    erewrite bindOp_Return by reflexivity.
    erewrite bindOp_Return by (apply await_outcome; exact Hfind).
    unfold toDocument, bindOp, lift.
    split; [|split].
    + intros picked Hpicked. apply mapM_Forall2 in Hpicked.
      rewrite Hpicked. reflexivity.
    + intros front document back e -> Hfront Hthrow.
      by rewrite (mapM_first_Throw _ _ _ _ _ Hfront Hthrow).
    + by destruct (mapM _ documents).
Qed.

End Outcomes.

Lemma save_of_existing_example :
  fst (save Sample.imports
         {| save_storableType := "Movie";
            save_identifierDescriptor := Sample.movie;
            save_serializedStorable := Sample.movie;
            save_isNew := None |}
         {| save_throwIfMissing := None; save_throwIfExists := None |}
         (Sample.store None))
  = Throw (CannotSaveMissing "Movie" Sample.movie)
  /\ fst (save Sample.imports
            {| save_storableType := "Movie";
               save_identifierDescriptor := Sample.movie;
               save_serializedStorable := Sample.movie;
               save_isNew := None |}
            {| save_throwIfMissing := Some false;
               save_throwIfExists := Some true |}
            (Sample.store None))
     = Throw (CannotSaveExisting "Movie" Sample.movie)
  /\ fst (save Sample.imports
            {| save_storableType := "Movie";
               save_identifierDescriptor := Sample.movie;
               save_serializedStorable := Sample.movie;
               save_isNew := None |}
            {| save_throwIfMissing := Some false; save_throwIfExists := None |}
            (Sample.store None))
     = Return false
  /\ fst (save Sample.imports
            {| save_storableType := "Movie";
               save_identifierDescriptor := Sample.movie;
               save_serializedStorable := Sample.movie;
               save_isNew := Some false |}
            {| save_throwIfMissing := None; save_throwIfExists := None |}
            Sample.servedStore)
     = Return true.
Proof.
  split; [|split; [|split]];
    match goal with
    | |- fst (save _ ?parameters ?opts (Sample.store None)) = _ =>
        refine (proj1 (save_of_existing Sample.imports (Sample.store None)
                         parameters opts "Movie" false ["updateDocument"]
                         eq_refl eq_refl _ _))
    | |- fst (save _ ?parameters ?opts Sample.servedStore) = _ =>
        refine (proj1 (save_of_existing Sample.imports Sample.servedStore
                         parameters opts "Movie" true 1 eq_refl eq_refl _ _))
    end; vm_compute; reflexivity.
Defined.

Lemma save_option_conflicts_example :
  fst (save Sample.imports
         {| save_storableType := "Movie";
            save_identifierDescriptor := Sample.movie;
            save_serializedStorable := Sample.movie;
            save_isNew := Some true |}
         {| save_throwIfMissing := Some true; save_throwIfExists := None |}
         Sample.servedStore)
  = Throw OptionsBothTrue
  /\ backend
       (snd (save Sample.imports
               {| save_storableType := "Movie";
                  save_identifierDescriptor := Sample.movie;
                  save_serializedStorable := Sample.movie;
                  save_isNew := Some true |}
               {| save_throwIfMissing := Some true; save_throwIfExists := None |}
               Sample.servedStore))
     = 0.
Proof.
  exact (save_option_conflicts Sample.imports Sample.servedStore
           {| save_storableType := "Movie";
              save_identifierDescriptor := Sample.movie;
              save_serializedStorable := Sample.movie;
              save_isNew := Some true |}
           {| save_throwIfMissing := Some true; save_throwIfExists := None |}
           eq_refl).
Defined.

Lemma delete_reports_backend_example :
  fst (delete Sample.imports
         {| del_storableType := "Movie";
            del_identifierDescriptor := Sample.movie |}
         {| del_throwIfMissing := Some false |}
         (Sample.store None))
  = Return false
  /\ fst (delete Sample.imports
            {| del_storableType := "Movie";
               del_identifierDescriptor := Sample.movie |}
            {| del_throwIfMissing := None |}
            Sample.servedStore)
     = Return true.
Proof.
  split;
    match goal with
    | |- fst (delete _ ?parameters ?opts (Sample.store None)) = _ =>
        refine (proj1 (delete_reports_backend Sample.imports
                         (Sample.store None) parameters opts "Movie" false
                         ["deleteDocument"] _ _ (or_intror eq_refl)))
    | |- fst (delete _ ?parameters ?opts Sample.servedStore) = _ =>
        refine (proj1 (delete_reports_backend Sample.imports
                         Sample.servedStore parameters opts "Movie" true 1
                         _ _ (or_introl eq_refl)))
    end; vm_compute; reflexivity.
Defined.


Lemma invalid_query_example :
  fst (count Sample.imports
         {| cnt_storableType := "Movie"; cnt_query := Some Sample.rootInQuery |}
         Sample.servedStore)
  = Throw (InvalidQuery
             (UnsupportedRootOperator "$in" [("$in", VArray [VNumber 3])]))
  /\ backend
       (snd (count Sample.imports
               {| cnt_storableType := "Movie";
                  cnt_query := Some Sample.rootInQuery |}
               Sample.servedStore))
     = 0.
Proof.
  refine (proj2 (invalid_query_stops_find_and_count Sample.imports
                   Sample.servedStore)
            {| cnt_storableType := "Movie";
               cnt_query := Some Sample.rootInQuery |} "Movie" _ _ _);
    vm_compute; reflexivity.
Defined.

Lemma reads_return_shaped_documents_example :
  fst (load Sample.imports
         {| load_storableType := "Movie";
            load_identifierDescriptor := Sample.movie |}
         {| load_attributeSelector := None; load_throwIfMissing := Some false |}
         Sample.servedStore)
  = Return (Some Sample.movie)
  /\ fst (find Sample.imports
            {| fnd_storableType := "Movie"; fnd_query := None;
               fnd_sort := None; fnd_skip := None; fnd_limit := Some 2%Z |}
            {| fnd_attributeSelector := None |}
            Sample.servedStore)
     = Return [Sample.movie; VObject []].
Proof.
  destruct (reads_return_shaped_documents Sample.imports Sample.servedStore)
    as [Hload Hfind].
  split;
    match goal with
    | |- fst (load _ ?parameters ?opts _) = _ =>
        refine (proj1 (Hload parameters opts (VBoolean true) "Movie"
                         Sample.movie 1 _ _ _));
        vm_compute; reflexivity
    | |- fst (find _ ?parameters ?opts _) = _ =>
        refine (proj1 (Hfind parameters opts (VBoolean true) "Movie" []
                         [Sample.movie; VObject []] 1 _ _ _ _)
                  [Sample.movie; VObject []] _);
        [vm_compute; reflexivity .. | repeat constructor]
    end.
Defined.

(** ** Registration *)

Section RegistrationProperties.

Context {Storable Component StoreRef Slots B : Type}.
Context `{EqDecision Component} `{EqDecision StoreRef}.
Variable layer : @ComponentLayer Storable Component StoreRef Slots.
Variable this : StoreRef.

Abbreviation Reg := (@Registry Storable Component Slots B).

Lemma keepsStorables_refl (registry : Reg) : keepsStorables registry registry.
Proof. by intros name storable. Qed.

Lemma keepsStorables_trans (r1 r2 r3 : Reg) :
  keepsStorables r1 r2 -> keepsStorables r2 r3 -> keepsStorables r1 r3.
Proof. intros H12 H23 name storable Hlookup. by apply H23, H12. Qed.

Lemma registerStorable_effects storable (registry : Reg) :
  keepsStorables registry (snd (registerStorable layer this storable registry))
  /\ _rootComponents (snd (registerStorable layer this storable registry))
     = _rootComponents registry
  /\ _trace (registryStore (snd (registerStorable layer this storable registry)))
     = _trace (registryStore registry)
  /\ backend (registryStore (snd (registerStorable layer this storable registry)))
     = backend (registryStore registry)
  /\ (forall e,
         fst (registerStorable layer this storable registry) = Throw e ->
         snd (registerStorable layer this storable registry) = registry).
Proof.
  unfold registerStorable, bindOp, lift.
  destruct (assertIsStorableLikeClass layer storable) as [[]|e];
    [|simpl; split; [apply keepsStorables_refl | by repeat split]].
  destruct (hasStore layer storable (storeSlots registry)).
  { destruct (getStore layer storable (storeSlots registry)) as [owner|e];
      [destruct (decide (owner = this))|];
      simpl; (split; [apply keepsStorables_refl | by repeat split]). }
  cbv zeta.
  destruct (_storables (registryStore registry) !! componentName layer storable)
    as [existing|] eqn:Hlookup;
    [simpl; split; [apply keepsStorables_refl | by repeat split]|].
  simpl. split; [|by repeat split].
  intros name other Hother. simpl.
  rewrite lookup_insert_ne; [done|]. intros <-. congruence.
Qed.

Lemma registerIfComponentIsStorable_effects component count (registry : Reg) :
  keepsStorables registry
    (snd (registerIfComponentIsStorable layer this component count registry))
  /\ _rootComponents
       (snd (registerIfComponentIsStorable layer this component count registry))
     = _rootComponents registry
  /\ (forall count',
         fst (registerIfComponentIsStorable layer this component count registry)
         = Return count' ->
         count' = count + length (storablesAmong layer [component]))
  /\ (storablesAmong layer [component] = [] ->
      registerIfComponentIsStorable layer this component count registry
      = (Return count, registry)).
Proof.
  unfold registerIfComponentIsStorable, storablesAmong. simpl.
  destruct (isStorableLikeClass layer component) as [storable|]; simpl.
  - destruct (registerStorable_effects storable registry)
      as (Hkeeps & Hroots & _ & _ & _).
    unfold bindOp.
    destruct (registerStorable layer this storable registry)
      as [[[]|e] registry']; simpl in *.
    + split; [done|]. split; [done|]. split; [|done].
      intros count' [= <-]. lia.
    + split; [done|]. split; [done|]. split; done.
  - split; [apply keepsStorables_refl|]. split; [done|]. split; [|done].
    intros count' [= <-]. lia.
Qed.

Lemma registerAll_effects components :
  forall count (registry : Reg),
    keepsStorables registry
      (snd (forEachOp (registerIfComponentIsStorable layer this) components
              count registry))
    /\ _rootComponents
         (snd (forEachOp (registerIfComponentIsStorable layer this) components
                 count registry))
       = _rootComponents registry
    /\ (forall count',
           fst (forEachOp (registerIfComponentIsStorable layer this) components
                  count registry)
           = Return count' ->
           count' = count + length (storablesAmong layer components))
    /\ (storablesAmong layer components = [] ->
        forEachOp (registerIfComponentIsStorable layer this) components
          count registry
        = (Return count, registry)).
Proof.
  induction components as [|component components IH]; intros count registry.
  - simpl. split; [apply keepsStorables_refl|]. split; [done|].
    split; [|done]. intros count' [= <-]. lia.
  - destruct (registerIfComponentIsStorable_effects component count registry)
      as (Hkeeps & Hroots & Hcount & Hnone).
    change (forEachOp (registerIfComponentIsStorable layer this)
              (component :: components) count registry)
      with (bindOp (registerIfComponentIsStorable layer this component count)
              (forEachOp (registerIfComponentIsStorable layer this) components)
              registry).
    unfold bindOp.
    assert (Hlength : length (storablesAmong layer (component :: components))
                      = length (storablesAmong layer [component])
                        + length (storablesAmong layer components)).
    { unfold storablesAmong. simpl.
      by destruct (isStorableLikeClass layer component). }
    assert (Hsplit : storablesAmong layer (component :: components) = [] ->
                     storablesAmong layer [component] = []
                     /\ storablesAmong layer components = []).
    { unfold storablesAmong. simpl.
      by destruct (isStorableLikeClass layer component). }
    destruct (registerIfComponentIsStorable layer this component count registry)
      as [[count1|e] registry1] eqn:Hfirst; simpl in *.
    + destruct (IH count1 registry1) as (Hkeeps' & Hroots' & Hcount' & Hnone').
      split; [by eapply keepsStorables_trans|].
      split; [by rewrite Hroots'|]. split.
      * intros count' Hrest. rewrite (Hcount' count' Hrest), Hlength.
        rewrite (Hcount count1 eq_refl). lia.
      * intros Hempty. destruct (Hsplit Hempty) as [Hhead Htail].
        specialize (Hnone Hhead). injection Hnone as -> ->.
        by apply Hnone'.
    + split; [done|]. split; [done|]. split; [done|].
      intros Hempty. destruct (Hsplit Hempty) as [Hhead _].
      specialize (Hnone Hhead). discriminate.
Qed.

End RegistrationProperties.

Section RegistrationTheorems.

Context {Storable Component StoreRef Slots B : Type}.
Context `{EqDecision Component} `{EqDecision StoreRef}.
Variable layer : @ComponentLayer Storable Component StoreRef Slots.
Variable this : StoreRef.

(** [registerStorable] never replaces or removes a registered storable,
    whatever its outcome: every name registered before stands for the same
    storable after; the root components, the trace and the backend are
    left alone; and when it fails nothing at all has changed. *)
Theorem registerStorable_never_overwrites storable
  (registry : @Registry Storable Component Slots B) :
  keepsStorables registry (snd (registerStorable layer this storable registry))
  /\ _rootComponents (snd (registerStorable layer this storable registry))
     = _rootComponents registry
  /\ _trace (registryStore (snd (registerStorable layer this storable registry)))
     = _trace (registryStore registry)
  /\ backend (registryStore (snd (registerStorable layer this storable registry)))
     = backend (registryStore registry)
  /\ (forall e,
         fst (registerStorable layer this storable registry) = Throw e ->
         snd (registerStorable layer this storable registry) = registry).
Proof. apply registerStorable_effects. Qed.

(** A storable class that has no store yet and whose name is free is
    registered: it becomes the class its name and its component type
    resolve to ([getStorable], [hasStorable], [getStorableOfType], the
    latter giving the prototype for an instance type), it is given this
    store, and the other names are as before. *)
Theorem registered_storable_is_resolved storable
  (registry : @Registry Storable Component Slots B) :
  assertIsStorableLikeClass layer storable = Return tt ->
  hasStore layer storable (storeSlots registry) = false ->
  _storables (registryStore registry) !! componentName layer storable = None ->
  fst (registerStorable layer this storable registry) = Return tt
  /\ hasStorable (componentName layer storable)
       (snd (registerStorable layer this storable registry))
     = true
  /\ fst (getStorable (componentName layer storable)
            (snd (registerStorable layer this storable registry)))
     = Return storable
  /\ storeSlots (snd (registerStorable layer this storable registry))
     = __setStore layer storable this (storeSlots registry)
  /\ (forall name,
         name <> componentName layer storable ->
         _storables
           (registryStore (snd (registerStorable layer this storable registry)))
         !! name
         = _storables (registryStore registry) !! name)
  /\ (forall (Projection DocumentPatch : Type)
        (imports : @Imports Storable Projection DocumentPatch) type kind,
         assertIsComponentType imports type = Return kind ->
         match kind with
         | componentClassType =>
             getComponentNameFromComponentClassType imports type
         | componentInstanceType =>
             getComponentNameFromComponentInstanceType imports type
         end
         = componentName layer storable ->
         fst (getStorableOfType imports type
                (registryStore
                   (snd (registerStorable layer this storable registry))))
         = Return
             match kind with
             | componentClassType => storable
             | componentInstanceType => prototype imports storable
             end).
Proof.
  intros Hassert Hfree Hname.
  unfold registerStorable, bindOp, lift. rewrite Hassert, Hfree. cbv zeta.
  rewrite Hname. simpl.
  split; [done|].
  split; [unfold hasStorable, _getStorable; simpl;
          by rewrite lookup_insert_eq|].
  split; [unfold getStorable, _getStorable; simpl;
          by rewrite lookup_insert_eq|].
  split; [done|].
  split; [intros name Hother; by rewrite lookup_insert_ne|].
  intros Projection DocumentPatch imports type kind Hkind Hcomponent.
  unfold getStorableOfType, _getStorableOfType, _getStorable, bindOp, lift.
  rewrite Hkind.
  destruct kind; simpl; by rewrite Hcomponent, lookup_insert_eq.
Qed.

(** [registerStorable] refuses a storable class that belongs to another
    store, and a class whose name is taken by a registered class; a class
    that belongs to this store already is accepted and nothing changes. *)
Theorem registerStorable_conflicts storable
  (registry : @Registry Storable Component Slots B) :
  assertIsStorableLikeClass layer storable = Return tt ->
  (forall owner,
      hasStore layer storable (storeSlots registry) = true ->
      getStore layer storable (storeSlots registry) = Return owner ->
      registerStorable layer this storable registry
      = (if decide (owner = this) then Return tt
         else Throw (RegisteredInAnotherStore storable),
         registry))
  /\ (forall existingStorable,
         hasStore layer storable (storeSlots registry) = false ->
         _storables (registryStore registry) !! componentName layer storable
         = Some existingStorable ->
         registerStorable layer this storable registry
         = (Throw (SameNameRegistered existingStorable), registry)).
Proof.
  intros Hassert. unfold registerStorable, bindOp, lift. rewrite Hassert.
  split.
  - intros owner Hhas Howner. rewrite Hhas, Howner.
    by destruct (decide (owner = this)).
  - intros existingStorable Hhas Hname. rewrite Hhas. cbv zeta.
    by rewrite Hname.
Qed.

(** Registering twice is registering once, for a component layer whose
    [hasStore] and [getStore] read what [__setStore] wrote. *)
Theorem registerStorable_is_idempotent storable
  (registry : @Registry Storable Component Slots B) :
  (forall slots,
      hasStore layer storable (__setStore layer storable this slots) = true
      /\ getStore layer storable (__setStore layer storable this slots)
         = Return this) ->
  fst (registerStorable layer this storable registry) = Return tt ->
  registerStorable layer this storable
    (snd (registerStorable layer this storable registry))
  = (Return tt, snd (registerStorable layer this storable registry)).
Proof.
  intros Hlaws. unfold registerStorable at 1 3 4. unfold bindOp, lift.
  destruct (assertIsStorableLikeClass layer storable) as [[]|e] eqn:Hassert;
    [|discriminate].
  destruct (hasStore layer storable (storeSlots registry)) eqn:Hhas.
  - destruct (getStore layer storable (storeSlots registry)) as [owner|e]
      eqn:Howner; [|discriminate].
    destruct (decide (owner = this)) as [->|Hother]; [|discriminate].
    intros _. simpl.
    unfold registerStorable, bindOp, lift.
    rewrite Hassert, Hhas, Howner. by rewrite decide_True.
  - cbv zeta.
    destruct (_storables (registryStore registry)
              !! componentName layer storable) eqn:Hname; [discriminate|].
    intros _. simpl.
    unfold registerStorable, bindOp, lift. rewrite Hassert. simpl.
    destruct (Hlaws (storeSlots registry)) as [-> ->].
    by rewrite decide_True.
Qed.

(** [registerRootComponent] adds the root component to the root components
    (once: a set) before it registers anything, so that the component is a
    root component afterwards even when the registration fails; it never
    replaces a registered storable; it succeeds only if the root component
    or one of the components it provides is a storable class, and when none
    is it fails with [NoStorableFound] having registered nothing. *)
Theorem registerRootComponent_effects rootComponent
  (registry : @Registry Storable Component Slots B) :
  assertIsComponentClass layer rootComponent = Return tt ->
  _rootComponents (snd (registerRootComponent layer this rootComponent registry))
  = setAdd rootComponent (_rootComponents registry)
  /\ rootComponent
     ∈ _rootComponents
         (snd (registerRootComponent layer this rootComponent registry))
  /\ keepsStorables registry
       (snd (registerRootComponent layer this rootComponent registry))
  /\ (fst (registerRootComponent layer this rootComponent registry) = Return tt ->
      storablesAmong layer
        (rootComponent :: getProvidedComponents layer rootComponent)
      <> [])
  /\ (storablesAmong layer
        (rootComponent :: getProvidedComponents layer rootComponent)
      = [] ->
      fst (registerRootComponent layer this rootComponent registry)
      = Throw (NoStorableFound rootComponent)
      /\ registryStore
           (snd (registerRootComponent layer this rootComponent registry))
         = registryStore registry
      /\ storeSlots
           (snd (registerRootComponent layer this rootComponent registry))
         = storeSlots registry).
Proof.
  intros Hassert.
  set (added :=
         {| registryStore := registryStore registry;
            _rootComponents := setAdd rootComponent (_rootComponents registry);
            storeSlots := storeSlots registry |}
         : @Registry Storable Component Slots B).
  assert (Hrun :
    registerRootComponent layer this rootComponent registry
    = bindOp
        (forEachOp (registerIfComponentIsStorable layer this)
           (rootComponent :: getProvidedComponents layer rootComponent) 0)
        (fun storableCount =>
           if Nat.eqb storableCount 0
           then throw (NoStorableFound rootComponent)
           else ret tt)
        added).
  { unfold registerRootComponent, bindOp at 1 2, lift. rewrite Hassert.
    simpl forEachOp. fold added. unfold bindOp.
    by destruct (registerIfComponentIsStorable layer this rootComponent 0 added)
      as [[count|e] registry']. }
  rewrite Hrun. clear Hrun. unfold bindOp.
  destruct (registerAll_effects layer this
              (rootComponent :: getProvidedComponents layer rootComponent)
              0 added)
    as (Hkeeps & Hroots & Hcount & Hnone).
  assert (Hmember : rootComponent ∈ setAdd rootComponent (_rootComponents registry)).
  { unfold setAdd. destruct (decide (rootComponent ∈ _rootComponents registry));
      [done|]. apply elem_of_app. right. by apply list_elem_of_singleton. }
  destruct (forEachOp (registerIfComponentIsStorable layer this)
              (rootComponent :: getProvidedComponents layer rootComponent)
              0 added)
    as [[count|e] registry'] eqn:Hloop; simpl in *.
  - assert (Hresult :
      snd ((if Nat.eqb count 0
            then throw (NoStorableFound rootComponent)
            else ret tt) registry'
           : result (RegistryError Storable Component) unit * _)
      = registry') by (by destruct (Nat.eqb count 0)).
    rewrite Hresult.
    split; [done|]. split; [by rewrite Hroots|]. split; [done|]. split.
    + intros Hreturn Hempty. specialize (Hcount count eq_refl).
      rewrite Hempty in Hcount. simpl in Hcount. subst count.
      discriminate.
    + intros Hempty. specialize (Hnone Hempty). injection Hnone as -> ->.
      by repeat split.
  - split; [done|]. split; [by rewrite Hroots|]. split; [done|]. split.
    + discriminate.
    + intros Hempty. specialize (Hnone Hempty). discriminate.
Qed.

End RegistrationTheorems.

Lemma registerStorable_never_overwrites_example :
  fst (registerStorable Sample.layer 1 "Movie" Sample.foreignRegistry)
  = Throw (RegisteredInAnotherStore "Movie")
  /\ snd (registerStorable Sample.layer 1 "Movie" Sample.foreignRegistry)
     = Sample.foreignRegistry.
Proof.
  split; [vm_compute; reflexivity|].
  apply (proj2 (proj2 (proj2 (proj2
           (registerStorable_never_overwrites Sample.layer 1 "Movie"
              Sample.foreignRegistry))))
           (RegisteredInAnotherStore "Movie")).
  vm_compute; reflexivity.
Defined.

Lemma registered_storable_example :
  fst (getStorable "Movie"
         (snd (registerStorable Sample.layer 1 "Movie" Sample.emptyRegistry)))
  = Return "Movie"
  /\ fst (getStorableOfType Sample.imports "Movie"
            (registryStore
               (snd (registerStorable Sample.layer 1 "Movie"
                       Sample.emptyRegistry))))
     = Return "Movie".
Proof.
  destruct (registered_storable_is_resolved Sample.layer 1 "Movie"
              Sample.emptyRegistry eq_refl eq_refl eq_refl)
    as (_ & _ & Hfound & _ & _ & Hresolved).
  split; [exact Hfound|].
  exact (Hresolved unit value Sample.imports "Movie" componentInstanceType
           eq_refl eq_refl).
Defined.

Lemma registerStorable_conflicts_example :
  registerStorable Sample.layer 1 "Movie" Sample.foreignRegistry
  = (Throw (RegisteredInAnotherStore "Movie"), Sample.foreignRegistry)
  /\ registerStorable Sample.layer 7 "Movie" Sample.foreignRegistry
     = (Return tt, Sample.foreignRegistry).
Proof.
  split.
  - exact (proj1 (registerStorable_conflicts Sample.layer 1 "Movie"
                    Sample.foreignRegistry eq_refl)
             7 eq_refl eq_refl).
  - exact (proj1 (registerStorable_conflicts Sample.layer 7 "Movie"
                    Sample.foreignRegistry eq_refl)
             7 eq_refl eq_refl).
Defined.

Lemma registerStorable_twice_example :
  registerStorable Sample.layer 1 "Movie"
    (snd (registerStorable Sample.layer 1 "Movie" Sample.emptyRegistry))
  = (Return tt, snd (registerStorable Sample.layer 1 "Movie" Sample.emptyRegistry)).
Proof.
  apply (registerStorable_is_idempotent Sample.layer 1 "Movie"
           Sample.emptyRegistry).
  - intros slots. simpl. rewrite lookup_insert_eq. split; [|reflexivity].
    apply bool_decide_eq_true_2. by eexists.
  - reflexivity.
Defined.

Lemma registerRootComponent_example :
  (fst (registerRootComponent Sample.layer 1 "Frontend" Sample.emptyRegistry)
   = Throw (NoStorableFound "Frontend")
   /\ _rootComponents
        (snd (registerRootComponent Sample.layer 1 "Frontend"
                Sample.emptyRegistry))
      = ["Frontend"])
  /\ "Backend"
     ∈ _rootComponents
         (snd (registerRootComponent Sample.layer 1 "Backend"
                 Sample.emptyRegistry))
  /\ fst (registerRootComponent Sample.layer 1 "Backend" Sample.emptyRegistry)
     = Return tt.
Proof.
  destruct (registerRootComponent_effects Sample.layer 1 "Frontend"
              Sample.emptyRegistry eq_refl)
    as (Hroots & _ & _ & _ & Hnone).
  destruct (registerRootComponent_effects Sample.layer 1 "Backend"
              Sample.emptyRegistry eq_refl)
    as (_ & Hmember & _ & _ & _).
  split; [split|split].
  - exact (proj1 (Hnone eq_refl)).
  - rewrite Hroots. reflexivity.
  - exact Hmember.
  - vm_compute; reflexivity.
Defined.

Lemma tracing_sessions_example :
  option_map (map operation)
    (match
       fst (getTrace
              (performAll Sample.imports
                 [CallCount {| cnt_storableType := "Movie"; cnt_query := None |}]
                 (startTrace (Sample.store (Some [])))))
     with
     | Return entries => Some entries
     | Throw _ => None
     end)
  = Some ["find"]
  /\ fst (getTrace
            (performAll Sample.imports
               [CallCount {| cnt_storableType := "Movie"; cnt_query := None |}]
               (stopTrace (Sample.store (Some [])))))
     = Throw NotTracing.
Proof.
  destruct (tracing_sessions Sample.imports
              [CallCount {| cnt_storableType := "Movie"; cnt_query := None |}]
              (Sample.store (Some [])))
    as ((entries & Hentries & Hnames) & Hstopped & _).
  split.
  - rewrite Hentries. simpl. by rewrite Hnames.
  - by rewrite Hstopped.
Defined.

(** ** Quantifiers *)

(** Under [$some], [$every] and [$not] the value is compiled on its own
    from the empty path: a value without operator keys gives, nested in the
    one expression of the operator, one [$equal] expression per leaf whose
    path is relative to the value (the empty path for a value that is not a
    plain object), whatever the path the operator stands at. *)
Theorem quantifier_subquery_is_relative
  (normalize : Operator -> value -> Query -> result QueryError Operator)
  (operator normalized : Operator) (v : value)
  (expressions : list Expression) (path : Path) (query : Query) :
  normalize operator v query = Return normalized ->
  isQuantifierOperator normalized = true ->
  operatorFree v = true ->
  handleOperator normalize operator v expressions path query
  = Return (expressions
            ++ [Expr path normalized
                  (Nested (map (leafExpression "") (leaves v)))]).
Proof.
  intros Hnormalized Hquantifier Hfree.
  unfold handleOperator, handleOperator_.
  rewrite Hnormalized, bind_Return, Hquantifier.
  by rewrite (handleValue_operatorFree normalize v Hfree [] "" query).
Qed.

Lemma quantifier_subquery_example :
  handleOperator Sample.normalize "$some"
    (VObject [("name", VString "x");
              ("address", VObject [("city", VString "y")])])
    [] "tags" []
  = Return
      [Expr "tags" "$some"
         (Nested [Expr "name" "$equal" (Plain (VString "x"));
                  Expr "address.city" "$equal" (Plain (VString "y"))])]
  /\ handleOperator Sample.normalize "$not" (VNumber 5) [] "n" []
     = Return [Expr "n" "$not" (Nested [Expr "" "$equal" (Plain (VNumber 5))])].
Proof.
  split.
  - exact (quantifier_subquery_is_relative Sample.normalize "$some" "$some"
             (VObject [("name", VString "x");
                       ("address", VObject [("city", VString "y")])])
             [] "tags" [] eq_refl eq_refl eq_refl).
  - exact (quantifier_subquery_is_relative Sample.normalize "$not" "$not"
             (VNumber 5) [] "n" [] eq_refl eq_refl eq_refl).
Defined.
